(** * ProjectBrainSaver: intent dispatch and memory retrieval

    A shallow embedding of [projectbrainsaver.py]: the [MemoryAgent] store
    operations, the keyword classifier [interpret_request] and the turn
    sequencing of [GuardianOrchestrator.process_request], followed by the
    properties established about them.

    Text is modelled as [string] (a sequence of 8-bit characters): the
    case mapping and the white-space set are the ASCII ones, characters
    above 127 are left untouched by [lower]. *)

From Stdlib Require Import String Ascii List ZArith Bool Arith Lia.
From Stdlib Require Import Permutation Sorted PrimFloat DecimalString.
Import ListNotations.

Set Warnings "-inexact-float".
Open Scope string_scope.

(** ** Python string primitives *)

Module PyStr.

(** ["\n"] *)
Definition nl : string := String "010"%char EmptyString.

Definition is_upper (c : ascii) : bool :=
  let n := nat_of_ascii c in (65 <=? n)%nat && (n <=? 90)%nat.

Definition lower_char (c : ascii) : ascii :=
  if is_upper c then ascii_of_nat (nat_of_ascii c + 32) else c.

(** [s.lower()] *)
Fixpoint lower (s : string) : string :=
  match s with
  | EmptyString => EmptyString
  | String c s' => String (lower_char c) (lower s')
  end.

(** [c.isspace()]: tab, line feed, vertical tab, form feed, carriage
    return, the four separators 0x1c-0x1f and the space. *)
Definition isspace (c : ascii) : bool :=
  let n := nat_of_ascii c in
  ((9 <=? n)%nat && (n <=? 13)%nat) || ((28 <=? n)%nat && (n <=? 32)%nat).

(** [s.split()]: maximal runs of non-space characters, in order. *)
Fixpoint split (s : string) : list string :=
  match s with
  | EmptyString => []
  | String c s' =>
      if isspace c then split s'
      else
        match s' with
        | EmptyString => [String c EmptyString]
        | String d _ =>
            if isspace d then String c EmptyString :: split s'
            else
              match split s' with
              | w :: ws => String c w :: ws
              | [] => [String c EmptyString]
              end
        end
  end.

(** [hay.startswith(needle)] *)
Fixpoint startswith (needle hay : string) : bool :=
  match needle, hay with
  | EmptyString, _ => true
  | String _ _, EmptyString => false
  | String a n', String b h' => Ascii.eqb a b && startswith n' h'
  end.

(** [needle in hay] *)
Fixpoint contains (needle hay : string) : bool :=
  startswith needle hay
  || match hay with
     | EmptyString => false
     | String _ h' => contains needle h'
     end.

(** [any(word in text for word in words)] *)
Definition any_in (words : list string) (text : string) : bool :=
  existsb (fun word => contains word text) words.

(** [s.replace(old, new)] for a non-empty [old]: a left-to-right scan
    replacing non-overlapping occurrences; [skip] counts the characters
    of the occurrence just replaced that are still to be dropped. *)
Fixpoint replace_from (old new : string) (skip : nat) (s : string) : string :=
  match s with
  | EmptyString => EmptyString
  | String c s' =>
      match skip with
      | S k => replace_from old new k s'
      | O =>
          if startswith old s
          then new ++ replace_from old new (String.length old - 1) s'
          else String c (replace_from old new 0 s')
      end
  end.

Definition replace (old new s : string) : string := replace_from old new 0 s.

Fixpoint lstrip_by (drop : ascii -> bool) (s : string) : string :=
  match s with
  | EmptyString => EmptyString
  | String c s' => if drop c then lstrip_by drop s' else s
  end.

Fixpoint rstrip_by (drop : ascii -> bool) (s : string) : string :=
  match s with
  | EmptyString => EmptyString
  | String c s' =>
      match rstrip_by drop s' with
      | EmptyString => if drop c then EmptyString else String c EmptyString
      | r => String c r
      end
  end.

(** [s.strip()] *)
Definition strip (s : string) : string :=
  rstrip_by isspace (lstrip_by isspace s).

Fixpoint mem_char (c : ascii) (chars : string) : bool :=
  match chars with
  | EmptyString => false
  | String d chars' => Ascii.eqb c d || mem_char c chars'
  end.

(** [s.strip(chars)] *)
Definition strip_chars (chars s : string) : string :=
  rstrip_by (fun c => mem_char c chars) (lstrip_by (fun c => mem_char c chars) s).

(** [sep.join(parts)] *)
Fixpoint join (sep : string) (parts : list string) : string :=
  match parts with
  | [] => EmptyString
  | [p] => p
  | p :: ps => p ++ sep ++ join sep ps
  end.

(** [str(n)] for a length, and [str(z)] for an [int]. *)
Definition str_of_nat (n : nat) : string := NilZero.string_of_uint (Nat.to_uint n).
Definition str_of_int (z : Z) : string := NilZero.string_of_int (Z.to_int z).

(** [bool(s)] *)
Definition truthy (s : string) : bool :=
  match s with EmptyString => false | String _ _ => true end.

End PyStr.

Import PyStr.

(** ** The storage engine

    [sqlite3] is used through four statements only.  What the statements
    compute is modelled here: [LOWER], the [LIKE] operator with its two
    wildcards, [ORDER BY timestamp DESC] and [LIMIT]. *)

Module Sqlite.

(** [LOWER(x)] folds the ASCII letters. *)
Definition LOWER (s : string) : string := lower s.

(** [s LIKE pattern] with no [ESCAPE] clause: ['%'] stands for any run of
    characters, ['_'] for exactly one, any other character for itself up
    to ASCII case. *)
Fixpoint like (pattern : string) : string -> bool :=
  match pattern with
  | EmptyString =>
      fun s => match s with EmptyString => true | String _ _ => false end
  | String p pattern' =>
      if Ascii.eqb p "%" then
        fix any_run (s : string) : bool :=
          like pattern' s
          || match s with
             | EmptyString => false
             | String _ s' => any_run s'
             end
      else if Ascii.eqb p "_" then
        fun s =>
          match s with
          | EmptyString => false
          | String _ s' => like pattern' s'
          end
      else
        fun s =>
          match s with
          | EmptyString => false
          | String c s' => Ascii.eqb (lower_char p) (lower_char c) && like pattern' s'
          end
  end.

(** [LIMIT n]: a negative [n] means no bound. *)
Definition sql_limit {A : Type} (n : Z) (rows : list A) : list A :=
  if (n <? 0)%Z then rows else firstn (Z.to_nat n) rows.

End Sqlite.

Import Sqlite.

(** ** Data model *)

(** A row of the [interactions] table. *)
Record Interaction : Type := mkInteraction {
  rowid : nat;
  timestamp : string;
  user_input : string;
  agent_output : string;
  session_id : string;
  context_tags : string
}.

(** A row of the [user_preferences] table ([key] is the primary key). *)
Record Preference : Type := mkPreference {
  key : string;
  value : string;
  updated_at : string
}.

(** [WHERE key = ?] *)
Definition has_key (k : string) (p : Preference) : bool := String.eqb (key p) k.

(** The database file: both tables, rows in insertion order, and the
    AUTOINCREMENT counter of [interactions]. *)
Record Database : Type := mkDatabase {
  interactions : list Interaction;
  user_preferences : list Preference;
  sqlite_sequence : nat
}.

(** The dictionary [retrieve_relevant] builds for each selected row. *)
Record Recalled : Type := mkRecalled {
  r_timestamp : string;
  r_user_input : string;
  r_agent_output : string;
  r_context_tags : string
}.

(** A raised Python exception: its class name, whether the class derives
    from [Exception] (so that [except Exception] catches it) and [str(e)]. *)
Record PyExc : Type := mkExc {
  exc_class : string;
  exc_is_Exception : bool;
  exc_str : string
}.

Inductive Result (A : Type) : Type :=
| Ok (a : A)
| Raise (e : PyExc).
Arguments Ok {A} a.
Arguments Raise {A} e.

(** Values found in the [data] dictionary of an [AgentResponse]. *)
Inductive PyValue : Type :=
| VInt (z : Z)
| VBool (b : bool)
| VStr (s : string)
| VRecalled (rows : list Recalled)
| VOpaque.

(** [@dataclass AgentResponse] *)
Record AgentResponse : Type := mkAgentResponse {
  success : bool;
  message : string;
  data : option (list (string * PyValue));
  actions_taken : option (list string)
}.

(** The dictionary returned by [interpret_request]. *)
Record Interpretation : Type := mkInterpretation {
  primary_intent : string;
  agents_needed : list string;
  parameters : list (string * string);
  confidence : float
}.

(** [d[k] = v] and [d.get(k, default)] on a string-keyed dictionary kept
    in insertion order. *)
Fixpoint dict_set (k v : string) (d : list (string * string)) : list (string * string) :=
  match d with
  | [] => [(k, v)]
  | (k', v') :: d' => if String.eqb k' k then (k, v) :: d' else (k', v') :: dict_set k v d'
  end.

Fixpoint dict_get (k : string) (d : list (string * string)) (default : string) : string :=
  match d with
  | [] => default
  | (k', v') :: d' => if String.eqb k' k then v' else dict_get k d' default
  end.

(** ** Effects

    A method runs against the state of the process: the database file and
    three counters recording how many times the outside world has been
    consulted.  The outside world itself is an [Env]: whether the n-th
    store access fails, what the clock reads, and what each collaborating
    agent answers.  Engine resource limits (pattern length, expression
    depth) are not modelled. *)

Record State : Type := mkState {
  db : Database;
  accesses : nat;            (* store accesses made so far *)
  clock_reads : nat;         (* calls of datetime.now() so far *)
  dispatched : list string   (* log of the agent names handed to
                                _execute_agent_action, kept to state which
                                handlers a turn has invoked *)
}.

Record Env : Type := mkEnv {
  (* outcome of the n-th store access: None when sqlite3 answers *)
  sqlite_fault : nat -> option PyExc;
  (* datetime.now().isoformat() at the n-th reading *)
  now_isoformat : nat -> string;
  (* the collaborating agents, one entry per method the orchestrator calls *)
  research_get_information : string -> Result AgentResponse;
  file_agent_find_file : string -> Result AgentResponse;
  file_agent_organize_folder : string -> string -> Result AgentResponse;
  file_agent_remove_duplicates : string -> Result AgentResponse;
  automation_run_backup : string -> string -> Result AgentResponse;
  automation_organize_desktop : Result AgentResponse;
  automation_schedule_task : string -> string -> Result AgentResponse;
  automation_create_tool : string -> Result AgentResponse;
  phone_sort_photos : Result AgentResponse;
  phone_clean_contacts : Result AgentResponse;
  domain_check_domain_status : string -> Result AgentResponse;
  domain_fix_dns : string -> string -> string -> Result AgentResponse
}.

(** State passing with exceptions: a raise keeps the state reached. *)
Definition M (A : Type) : Type := State -> Result A * State.

Definition ret {A : Type} (a : A) : M A := fun st => (Ok a, st).

Definition raise {A : Type} (e : PyExc) : M A := fun st => (Raise e, st).

Definition bind {A B : Type} (m : M A) (k : A -> M B) : M B :=
  fun st =>
    match m st with
    | (Ok a, st') => k a st'
    | (Raise e, st') => (Raise e, st')
    end.

Notation "x <- m ;; k" := (bind m (fun x => k))
  (at level 61, m at next level, right associativity).
Notation "m ;;; k" := (bind m (fun _ => k))
  (at level 61, right associativity).

(** The value of a call made to a collaborator. *)
Definition call {A : Type} (r : Result A) : M A := fun st => (r, st).

(** [try: body  except Exception as e: handler(e)] *)
Definition try_except {A : Type} (body : M A) (handler : PyExc -> M A) : M A :=
  fun st =>
    match body st with
    | (Ok a, st') => (Ok a, st')
    | (Raise e, st') =>
        if exc_is_Exception e then handler e st' else (Raise e, st')
    end.

Definition set_db (d : Database) (st : State) : State :=
  mkState d (accesses st) (clock_reads st) (dispatched st).

(** ** MemoryAgent *)

Section MemoryAgent.

Variable env : Env.

(** One access to the database file ([sqlite3.connect] and the statement
    run on it): it either fails, leaving the file as it is, or hands over
    the current contents. *)
Definition sqlite3_connect : M Database :=
  fun st =>
    let st' := mkState (db st) (S (accesses st)) (clock_reads st) (dispatched st) in
    match sqlite_fault env (accesses st) with
    | Some e => (Raise e, st')
    | None => (Ok (db st), st')
    end.

Definition commit (d : Database) : M unit :=
  fun st => (Ok tt, set_db d st).

(** [datetime.now().isoformat()] *)
Definition datetime_now_isoformat : M string :=
  fun st =>
    (Ok (now_isoformat env (clock_reads st)),
     mkState (db st) (accesses st) (S (clock_reads st)) (dispatched st)).

(** [ORDER BY timestamp DESC], as a stable insertion sort on the text of
    the timestamps (the engine leaves the order of equal timestamps
    open; rows with equal timestamps keep their insertion order here). *)
Fixpoint insert_desc (r : Interaction) (sorted : list Interaction) : list Interaction :=
  match sorted with
  | [] => [r]
  | x :: xs =>
      if String.leb (timestamp x) (timestamp r) then r :: sorted
      else x :: insert_desc r xs
  end.

Definition order_by_timestamp_desc (rows : list Interaction) : list Interaction :=
  fold_right insert_desc [] rows.

(** [SELECT timestamp, user_input, agent_output, context_tags FROM
    interactions WHERE ... ORDER BY timestamp DESC LIMIT ?] *)
Definition select_interactions (where_clause : Interaction -> bool) (limit : Z)
    (rows : list Interaction) : list Interaction :=
  sql_limit limit (order_by_timestamp_desc (List.filter where_clause rows)).

Definition as_dict (row : Interaction) : Recalled :=
  mkRecalled (timestamp row) (user_input row) (agent_output row) (context_tags row).

(** One entry of [conditions] with its two entries of [params]:
    [(LOWER(user_input) LIKE ? OR LOWER(agent_output) LIKE ?)]. *)
Definition condition (params : string * string) (row : Interaction) : bool :=
  like (fst params) (LOWER (user_input row)) || like (snd params) (LOWER (agent_output row)).

Definition save_interaction (user_input agent_output session_id context_tags : string)
    : M unit :=
  d <- sqlite3_connect ;;
  timestamp <- datetime_now_isoformat ;;
  let rowid := S (sqlite_sequence d) in
  commit (mkDatabase
            (interactions d ++
               [mkInteraction rowid timestamp user_input agent_output session_id context_tags])
            (user_preferences d)
            rowid).

Definition retrieve_relevant (query : string) (limit : Z) : M (list Recalled) :=
  d <- sqlite3_connect ;;
  let search_terms := split (lower query) in
  let conditions :=
    map (fun term => ("%" ++ term ++ "%", "%" ++ term ++ "%")) search_terms in
  let results :=
    match conditions with
    | _ :: _ =>
        select_interactions
          (fun row => forallb (fun params => condition params row) conditions)
          limit (interactions d)
    | [] => select_interactions (fun _ => true) limit (interactions d)
    end in
  ret (map as_dict results).

(** [INSERT OR REPLACE]: the row holding the same primary key, if any,
    is deleted before the new row is inserted. *)
Definition set_preference (key value : string) : M unit :=
  d <- sqlite3_connect ;;
  timestamp <- datetime_now_isoformat ;;
  commit (mkDatabase
            (interactions d)
            (List.filter (fun p => negb (has_key key p)) (user_preferences d)
               ++ [mkPreference key value timestamp])
            (sqlite_sequence d)).

Definition get_preference (key : string) : M (option string) :=
  d <- sqlite3_connect ;;
  let result :=
    List.find (has_key key) (user_preferences d) in
  ret (match result with
       | Some p => Some (value p)
       | None => None
       end).

End MemoryAgent.

(** ** GuardianOrchestrator *)

(** *** interpret_request

    The function is one [if]/[elif] chain followed by one [if]; the two
    parts are kept as [primary_cascade] and [multi_agent_override]. *)

Definition set_action (action : string) (i : Interpretation) : Interpretation :=
  mkInterpretation (primary_intent i) (agents_needed i)
    (dict_set "action" action (parameters i)) (confidence i).

Definition set_agents_needed (agents : list string) (i : Interpretation) : Interpretation :=
  mkInterpretation (primary_intent i) agents (parameters i) (confidence i).

(** The three assignments opening every branch of the cascade. *)
Definition matched (intent agent : string) (conf : float) (i : Interpretation)
    : Interpretation :=
  mkInterpretation intent (agents_needed i ++ [agent]) (parameters i) conf.

Definition primary_cascade (request_lower : string) : Interpretation :=
  let interpretation := mkInterpretation "unknown" [] [] 0.0 in
  (* File management keywords *)
  if any_in ["file"; "folder"; "organize"; "find"; "duplicate"] request_lower then
    let interpretation := matched "file_management" "file" 0.8 interpretation in
    if contains "find" request_lower then set_action "find" interpretation
    else if contains "organize" request_lower then set_action "organize" interpretation
    else if contains "duplicate" request_lower then set_action "remove_duplicates" interpretation
    else interpretation
  (* Research keywords *)
  else if any_in ["search"; "research"; "find information"; "look up"] request_lower then
    matched "research" "research" 0.8 interpretation
  (* Domain management keywords *)
  else if any_in ["domain"; "dns"; "website"; "server"] request_lower then
    let interpretation := matched "domain_management" "domain" 0.8 interpretation in
    if contains "check" request_lower || contains "status" request_lower
    then set_action "check_status" interpretation
    else if contains "fix" request_lower then set_action "fix_dns" interpretation
    else interpretation
  (* Phone management keywords *)
  else if any_in ["phone"; "photos"; "contacts"; "mobile"] request_lower then
    let interpretation := matched "phone_management" "phone" 0.8 interpretation in
    if contains "photo" request_lower then set_action "sort_photos" interpretation
    else if contains "contact" request_lower then set_action "clean_contacts" interpretation
    else interpretation
  (* Automation keywords *)
  else if any_in ["automate"; "backup"; "schedule"; "desktop"; "tool"] request_lower then
    let interpretation := matched "automation" "automation" 0.8 interpretation in
    if contains "backup" request_lower then set_action "backup" interpretation
    else if contains "desktop" request_lower then set_action "organize_desktop" interpretation
    else if contains "schedule" request_lower then set_action "schedule_task" interpretation
    else if contains "tool" request_lower then set_action "create_tool" interpretation
    else interpretation
  (* Memory/context keywords *)
  else if any_in ["remember"; "recall"; "previous"; "last time"] request_lower then
    matched "memory_recall" "memory" 0.7 interpretation
  else interpretation.

(** Multi-agent requests *)
Definition multi_agent_override (request_lower : string) (interpretation : Interpretation)
    : Interpretation :=
  if contains "organize my" request_lower then
    if contains "phone" request_lower then
      set_agents_needed ["phone"; "memory"] interpretation
    else if contains "computer" request_lower || contains "files" request_lower then
      set_agents_needed ["file"; "automation"; "memory"] interpretation
    else interpretation
  else interpretation.

Definition interpret_request (user_input : string) : Interpretation :=
  let request_lower := lower user_input in
  multi_agent_override request_lower (primary_cascade request_lower).

(** *** _compile_response *)

(** [f"{value}"] when [isinstance(value, (int, str))] ([bool] is a
    subclass of [int]). *)
Definition format_scalar (v : PyValue) : option string :=
  match v with
  | VInt z => Some (str_of_int z)
  | VBool b => Some (if b then "True" else "False")
  | VStr s => Some s
  | VRecalled _ | VOpaque => None
  end.

Definition data_lines (data : option (list (string * PyValue))) : list string :=
  match data with
  | None => []
  | Some items =>
      flat_map
        (fun item : string * PyValue =>
           let (key, value) := item in
           match format_scalar value with
           | Some text =>
               if negb (String.eqb key "results") then ["  - " ++ key ++ ": " ++ text] else []
           | None => []
           end)
        items
  end.

Definition action_lines (actions_taken : option (list string)) : list string :=
  match actions_taken with
  | None => []
  | Some actions => map (fun action => "  • " ++ action) (firstn 3 actions)
  end.

Definition success_lines (response : AgentResponse) : list string :=
  ("✓ " ++ message response)
    :: (data_lines (data response) ++ action_lines (actions_taken response))%list.

Definition _compile_response (user_input : string) (interpretation : Interpretation)
    (agent_responses : list AgentResponse) (context_summary : string) : string :=
  let response_parts := if truthy context_summary then [context_summary] else [] in
  let successful_responses := List.filter success agent_responses in
  let failed_responses := List.filter (fun r => negb (success r)) agent_responses in
  let response_parts :=
    match successful_responses with
    | [] => response_parts
    | _ :: _ =>
        (response_parts ++ "Here's what I accomplished:"
           :: flat_map success_lines successful_responses)%list
    end in
  let response_parts :=
    match failed_responses with
    | [] => response_parts
    | _ :: _ =>
        (response_parts ++ (nl ++ "Some issues encountered:")%string
           :: map (fun response => "✗ " ++ message response)%string failed_responses)%list
    end in
  let response_parts :=
    if String.eqb (primary_intent interpretation) "file_management" then
      (response_parts ++
         [nl ++ "Tip: I can also help organize files by date, find duplicates, or backup important documents."]%string)%list
    else if String.eqb (primary_intent interpretation) "domain_management" then
      (response_parts ++
         [nl ++ "Tip: I can monitor your domains regularly and alert you to any issues."]%string)%list
    else if String.eqb (primary_intent interpretation) "phone_management" then
      (response_parts ++
         [nl ++ "Tip: I can also help with backing up your phone data to the cloud."]%string)%list
    else response_parts in
  join nl response_parts.

(** *** _execute_agent_action and process_request *)

(** What reading an attribute of [None] raises. *)
Definition AttributeError_NoneType (attribute : string) : PyExc :=
  mkExc "AttributeError" true
    ("'NoneType' object has no attribute '" ++ attribute ++ "'").

Section GuardianOrchestrator.

Variable env : Env.
(** [self.session_id] *)
Variable session_id : string.

Definition note_dispatch (agent_name : string) : M unit :=
  fun st =>
    (Ok tt,
     mkState (db st) (accesses st) (clock_reads st) (dispatched st ++ [agent_name])%list).

(** [return agent.method(...)] *)
Definition returning (r : Result AgentResponse) : M (option AgentResponse) :=
  response <- call r ;; ret (Some response).

(** The end of the [try] block is reached without a [return]: the
    function returns [None]. *)
Definition falls_through : M (option AgentResponse) := ret None.

Definition _execute_agent_action (agent_name : string)
    (parameters : list (string * string)) (user_input : string)
    : M (option AgentResponse) :=
  note_dispatch agent_name ;;;
  try_except
    (if String.eqb agent_name "research" then
       let query := strip (replace "research" "" (replace "search for" "" user_input)) in
       returning (research_get_information env query)
     else if String.eqb agent_name "file" then
       let action := dict_get "action" parameters "find" in
       if String.eqb action "find" then
         let search_terms := strip (replace "file" "" (replace "find" "" user_input)) in
         returning (file_agent_find_file env search_terms)
       else if String.eqb action "organize" then
         returning (file_agent_organize_folder env "." "type")
       else if String.eqb action "remove_duplicates" then
         returning (file_agent_remove_duplicates env ".")
       else falls_through
     else if String.eqb agent_name "automation" then
       let action := dict_get "action" parameters "organize_desktop" in
       if String.eqb action "backup" then
         returning (automation_run_backup env "./important_files" "./backup")
       else if String.eqb action "organize_desktop" then
         returning (automation_organize_desktop env)
       else if String.eqb action "schedule_task" then
         let task := strip (replace "schedule" "" user_input) in
         returning (automation_schedule_task env task "tomorrow 9:00 AM")
       else if String.eqb action "create_tool" then
         returning (automation_create_tool env user_input)
       else falls_through
     else if String.eqb agent_name "phone" then
       let action := dict_get "action" parameters "sort_photos" in
       if String.eqb action "sort_photos" then returning (phone_sort_photos env)
       else if String.eqb action "clean_contacts" then returning (phone_clean_contacts env)
       else falls_through
     else if String.eqb agent_name "domain" then
       let action := dict_get "action" parameters "check_status" in
       let words := split user_input in
       let domain :=
         match List.find
                 (fun word => contains "." word && negb (startswith "." word)) words with
         | Some word => strip_chars ".,!?" word
         | None => ""
         end in
       let domain := if truthy domain then domain else "example.com" in
       if String.eqb action "check_status" then
         returning (domain_check_domain_status env domain)
       else if String.eqb action "fix_dns" then
         returning (domain_fix_dns env domain "A" "192.168.1.1")
       else falls_through
     else if String.eqb agent_name "memory" then
       let query := strip (replace "recall" "" (replace "remember" "" user_input)) in
       past_interactions <- retrieve_relevant env query 5 ;;
       ret (Some (mkAgentResponse true
                    ("Found " ++ str_of_nat (List.length past_interactions)
                       ++ " relevant past interactions")
                    (Some [("past_interactions", VRecalled past_interactions)])
                    (Some ["Searched memory for: " ++ query])))
     else
       ret (Some (mkAgentResponse false ("Unknown agent: " ++ agent_name) None None)))
    (fun e =>
       ret (Some (mkAgentResponse false
                    ("Error in " ++ agent_name ++ ": " ++ exc_str e) None None))).

(** The [for agent_name in interpretation["agents_needed"]] loop, with
    the lists [responses] and [all_actions] it extends. *)
Fixpoint dispatch_loop (agents : list string) (parameters : list (string * string))
    (user_input : string) (responses : list AgentResponse) (all_actions : list string)
    : M (list AgentResponse * list string) :=
  match agents with
  | [] => ret (responses, all_actions)
  | agent_name :: rest =>
      agent_response <- _execute_agent_action agent_name parameters user_input ;;
      match agent_response with
      | None => raise (AttributeError_NoneType "actions_taken")
      | Some response =>
          let all_actions :=
            match actions_taken response with
            | Some (a :: more) => (all_actions ++ a :: more)%list
            | Some [] | None => all_actions
            end in
          dispatch_loop rest parameters user_input (responses ++ [response]) all_actions
      end
  end.

Definition unknown_reply : string :=
  "I'm not sure what you'd like me to help with. Could you please clarify your request?".

Definition process_request (user_input : string) : M string :=
  (* Check for relevant past context *)
  past_context <- retrieve_relevant env user_input 3 ;;
  let context_summary :=
    match past_context with
    | [] => ""
    | _ :: _ =>
        "Found " ++ str_of_nat (List.length past_context) ++ " relevant past interactions. "
    end in
  (* Interpret the request *)
  let interpretation := interpret_request user_input in
  if String.eqb (primary_intent interpretation) "unknown" then
    let response := unknown_reply in
    save_interaction env user_input response session_id "unknown_intent" ;;;
    ret response
  else
    (* Execute appropriate agent actions *)
    collected <- dispatch_loop (agents_needed interpretation)
                   (parameters interpretation) user_input [] [] ;;
    let responses := fst collected in
    (* Compile final response *)
    let final_response :=
      _compile_response user_input interpretation responses context_summary in
    (* Save interaction to memory *)
    let context_tags :=
      primary_intent interpretation ++ "," ++ join "," (agents_needed interpretation) in
    save_interaction env user_input final_response session_id context_tags ;;;
    ret final_response.

End GuardianOrchestrator.

(** ** The specification's vocabulary

    The definitions below follow the wording of the specification; the
    theorems compare them with the code above. *)

(** The six categories of the classifier, in the order of the cascade. *)
Inductive Category : Type :=
| FileManagement
| Research
| DomainManagement
| PhoneManagement
| Automation
| MemoryRecall.

Definition cascade_order : list Category :=
  [FileManagement; Research; DomainManagement; PhoneManagement; Automation; MemoryRecall].

Definition trigger_words (c : Category) : list string :=
  match c with
  | FileManagement => ["file"; "folder"; "organize"; "find"; "duplicate"]
  | Research => ["search"; "research"; "find information"; "look up"]
  | DomainManagement => ["domain"; "dns"; "website"; "server"]
  | PhoneManagement => ["phone"; "photos"; "contacts"; "mobile"]
  | Automation => ["automate"; "backup"; "schedule"; "desktop"; "tool"]
  | MemoryRecall => ["remember"; "recall"; "previous"; "last time"]
  end.

Definition intent_label (c : Category) : string :=
  match c with
  | FileManagement => "file_management"
  | Research => "research"
  | DomainManagement => "domain_management"
  | PhoneManagement => "phone_management"
  | Automation => "automation"
  | MemoryRecall => "memory_recall"
  end.

Definition handler_name (c : Category) : string :=
  match c with
  | FileManagement => "file"
  | Research => "research"
  | DomainManagement => "domain"
  | PhoneManagement => "phone"
  | Automation => "automation"
  | MemoryRecall => "memory"
  end.

(** Position of a category in the cascade order. *)
Definition rank (c : Category) : nat :=
  match c with
  | FileManagement => 0
  | Research => 1
  | DomainManagement => 2
  | PhoneManagement => 3
  | Automation => 4
  | MemoryRecall => 5
  end.

(** A category is triggered when one of its words is a substring of the
    lower-cased input. *)
Definition triggered (c : Category) (request_lower : string) : bool :=
  any_in (trigger_words c) request_lower.

(** The first category of the cascade order that is triggered. *)
Definition first_triggered (request_lower : string) : option Category :=
  List.find (fun c => triggered c request_lower) cascade_order.




(** A character of plain text: an ASCII character other than NUL.  On
    ASCII letters Python's [lower] and the engine's [LOWER] and [LIKE]
    fold the same letters, and the engine reads a text up to its first
    NUL; beyond plain text they part ways, and the definitions above
    follow neither. *)
Definition plain_char (c : ascii) : bool :=
  let n := nat_of_ascii c in (1 <=? n)%nat && (n <=? 127)%nat.

Fixpoint plain_text (s : string) : bool :=
  match s with
  | EmptyString => true
  | String c s' => plain_char c && plain_text s'
  end.

(** The two searched fields of a stored row are plain text. *)
Definition plain_row (row : Interaction) : bool :=
  plain_text (user_input row) && plain_text (agent_output row).


(** The same on stored rows. *)
Definition row_not_older (a b : Interaction) : Prop :=
  String.leb (timestamp b) (timestamp a) = true.

(** The state once one more store access has been made. *)
Definition accessed (st : State) : State :=
  mkState (db st) (S (accesses st)) (clock_reads st) (dispatched st).

(** The [LIKE] patterns built for one search term. *)
Definition term_params (term : string) : string * string :=
  ("%" ++ term ++ "%", "%" ++ term ++ "%").

(** Number of preference rows stored under [k]. *)
Definition rows_for_key (k : string) (d : Database) : nat :=
  List.length (List.filter (has_key k) (user_preferences d)).

(** Six interactions recorded with clock readings that are not in
    insertion order, used to run the retrieval on a concrete store. *)
Definition six_rows : list Interaction :=
  [ mkInteraction 1 "2024-03-01T10:00:00" "find the Alpha report" "searched alpha" "s" "file_management,file";
    mkInteraction 2 "2024-03-01T10:05:00" "beta only" "nothing" "s" "unknown_intent";
    mkInteraction 3 "2024-03-01T09:00:00" "Alpha test" "ran BETA suite" "s" "unknown_intent";
    mkInteraction 4 "2024-03-01T10:07:30.250000" "backup my disk" "backed up" "s" "automation,automation";
    mkInteraction 5 "2024-03-01T10:07:30" "sort photos" "photos sorted" "s" "phone_management,phone";
    mkInteraction 6 "2024-03-01T08:00:00" "100% done_now" "ok" "s" "unknown_intent" ].

Definition six_rows_state : State := mkState (mkDatabase six_rows [] 6) 0 0 [].

(** A computation that leaves the database and the dispatch log as they
    are, whatever it returns or raises. *)
Definition quiet {A : Type} (m : M A) : Prop :=
  forall st, db (snd (m st)) = db st /\ dispatched (snd (m st)) = dispatched st.

(** A computation out of which no fault deriving from [Exception] escapes. *)
Definition guarded {A : Type} (m : M A) : Prop :=
  forall st e, fst (m st) = Raise e -> exc_is_Exception e = false.

(** The state once [save_interaction] has committed a row. *)
Definition saved (env : Env) (user_input agent_output session_id context_tags : string)
    (st : State) : State :=
  let rowid := S (sqlite_sequence (db st)) in
  mkState
    (mkDatabase
       (interactions (db st) ++
          [mkInteraction rowid (now_isoformat env (clock_reads st))
             user_input agent_output session_id context_tags])
       (user_preferences (db st))
       rowid)
    (S (accesses st)) (S (clock_reads st)) (dispatched st).

(** The store answers the access numbered [n]. *)
Definition reachable (env : Env) (n : nat) : Prop := sqlite_fault env n = None.

(** An outside world used to run the code on concrete requests: the store
    always answers, the clock reads [T0], [T1], ..., every agent succeeds
    except [file_agent.organize_folder], which raises. *)
Definition done (text : string) : Result AgentResponse :=
  Ok (mkAgentResponse true text (Some [("count", VInt 2)]) (Some ["step"])).

Definition sample_env : Env :=
  mkEnv (fun _ => None) (fun n => "T" ++ str_of_nat n)
    (fun query => done ("researched " ++ query))
    (fun terms => done ("searched " ++ terms))
    (fun _ _ => Raise (mkExc "PermissionError" true "access denied"))
    (fun _ => done "deduplicated")
    (fun _ _ => done "backed up")
    (done "desktop organized")
    (fun _ _ => done "scheduled")
    (fun _ => done "tool created")
    (done "photos sorted")
    (done "contacts cleaned")
    (fun domain => done ("checked " ++ domain))
    (fun domain _ _ => done ("fixed " ++ domain)).

(** The same world with the store unreachable. *)
Definition offline_env : Env :=
  mkEnv (fun _ => Some (mkExc "OperationalError" true "unable to open database file"))
    (now_isoformat sample_env)
    (research_get_information sample_env) (file_agent_find_file sample_env)
    (file_agent_organize_folder sample_env) (file_agent_remove_duplicates sample_env)
    (automation_run_backup sample_env) (automation_organize_desktop sample_env)
    (automation_schedule_task sample_env) (automation_create_tool sample_env)
    (phone_sort_photos sample_env) (phone_clean_contacts sample_env)
    (domain_check_domain_status sample_env) (domain_fix_dns sample_env).

Definition empty_db : Database := mkDatabase [] [] 0.

Definition fresh : State := mkState empty_db 0 0 [].

(** A turn that completes in [sample_env], and its reply. *)
Definition sample_turn : Result string * State :=
  process_request sample_env "s1" "find the report" fresh.

Definition sample_reply : string :=
  match fst sample_turn with
  | Ok reply => reply
  | Raise _ => ""
  end.

(** The state reached when a turn stops while dispatching: one store
    access made, nothing stored, [agents] dispatched. *)
Definition stopped_after (agents : list string) (st : State) : State :=
  mkState (db st) (S (accesses st)) (clock_reads st) (dispatched st ++ agents).

(** ** Further vocabulary *)

(** The [WHERE] clause that [retrieve_relevant] builds for a query: the
    row satisfies the [LIKE] condition of every term. *)
Definition where_clause (query : string) (row : Interaction) : bool :=
  forallb (fun params => condition params row) (map term_params (split (lower query))).

(** Row identities grow along the insertion order and stay below the
    AUTOINCREMENT counter. *)
Definition rowids_increasing (d : Database) : Prop :=
  StronglySorted lt (map rowid (interactions d))
  /\ Forall (fun row => rowid row <= sqlite_sequence d) (interactions d).

(** [key] is a primary key of [user_preferences]. *)
Definition keys_unique (d : Database) : Prop := NoDup (map key (user_preferences d)).

(** A text made of white space only. *)
Fixpoint blank (s : string) : bool :=
  match s with
  | EmptyString => true
  | String c s' => isspace c && blank s'
  end.

(** The actions that the cascade derives in each category. *)
Definition actions_of_intent (intent : string) : list string :=
  if String.eqb intent "file_management" then ["find"; "organize"; "remove_duplicates"]
  else if String.eqb intent "domain_management" then ["check_status"; "fix_dns"]
  else if String.eqb intent "phone_management" then ["sort_photos"; "clean_contacts"]
  else if String.eqb intent "automation"
  then ["backup"; "organize_desktop"; "schedule_task"; "create_tool"]
  else [].

(** The constant confidence attached to each intent. *)
Definition confidence_of_intent (intent : string) : float :=
  if String.eqb intent "unknown" then 0.0
  else if String.eqb intent "memory_recall" then 0.7
  else 0.8.

(** [action in actions] *)
Definition action_in (action : string) (actions : list string) : bool :=
  existsb (String.eqb action) actions.

(** The action that [_execute_agent_action] reads for an agent is one of
    the actions the agent's branch tests; the agents with no action test
    accept any parameters. *)
Definition action_fits (agent_name : string) (parameters : list (string * string)) : bool :=
  if String.eqb agent_name "file" then
    action_in (dict_get "action" parameters "find") ["find"; "organize"; "remove_duplicates"]
  else if String.eqb agent_name "automation" then
    action_in (dict_get "action" parameters "organize_desktop")
      ["backup"; "organize_desktop"; "schedule_task"; "create_tool"]
  else if String.eqb agent_name "phone" then
    action_in (dict_get "action" parameters "sort_photos") ["sort_photos"; "clean_contacts"]
  else if String.eqb agent_name "domain" then
    action_in (dict_get "action" parameters "check_status") ["check_status"; "fix_dns"]
  else true.

(** A call that raises nothing but faults deriving from [Exception]. *)
Definition raises_only_exceptions {A : Type} (r : Result A) : Prop :=
  match r with
  | Ok _ => True
  | Raise e => exc_is_Exception e = true
  end.

(** Every fault of the outside world derives from [Exception]. *)
Definition faults_are_exceptions (env : Env) : Prop :=
  (forall n e, sqlite_fault env n = Some e -> exc_is_Exception e = true)
  /\ (forall a, raises_only_exceptions (research_get_information env a))
  /\ (forall a, raises_only_exceptions (file_agent_find_file env a))
  /\ (forall a b, raises_only_exceptions (file_agent_organize_folder env a b))
  /\ (forall a, raises_only_exceptions (file_agent_remove_duplicates env a))
  /\ (forall a b, raises_only_exceptions (automation_run_backup env a b))
  /\ raises_only_exceptions (automation_organize_desktop env)
  /\ (forall a b, raises_only_exceptions (automation_schedule_task env a b))
  /\ (forall a, raises_only_exceptions (automation_create_tool env a))
  /\ raises_only_exceptions (phone_sort_photos env)
  /\ raises_only_exceptions (phone_clean_contacts env)
  /\ (forall a, raises_only_exceptions (domain_check_domain_status env a))
  /\ (forall a b c, raises_only_exceptions (domain_fix_dns env a b c)).

(** The failed response built by the [except] clause of
    [_execute_agent_action]. *)
Definition error_response (agent_name : string) (e : PyExc) : AgentResponse :=
  mkAgentResponse false ("Error in " ++ agent_name ++ ": " ++ exc_str e) None None.

(** The state once an agent name has been logged as dispatched. *)
Definition dispatched_to (agent_name : string) (st : State) : State :=
  mkState (db st) (accesses st) (clock_reads st) (dispatched st ++ [agent_name]).

(** The note that opens a reply when [n] earlier interactions were found. *)
Definition context_note (n : nat) : string :=
  "Found " ++ str_of_nat n ++ " relevant past interactions. ".

(** The line in which a reply reports a response. *)
Definition report_line (response : AgentResponse) : string :=
  (if success response then "✓ " else "✗ ") ++ message response.

(** ** ResearchAgent *)

Module ResearchAgent.

(** The dictionary built by [_simulate_research]. *)
Record ResearchResults : Type := mkResearchResults {
  summary : string;
  sources : list (string * string);   (* title, url *)
  key_points : list string
}.

Definition _simulate_research (query : string) : ResearchResults :=
  mkResearchResults
    ("Research results for '" ++ query ++ "' would appear here.")
    [ ("Article about " ++ query, "https://example.com/1");
      ("Guide to " ++ query, "https://example.com/2") ]
    [ "Key insight 1 about " ++ query;
      "Key insight 2 about " ++ query;
      "Recommended action for " ++ query ].

(** The value stored under "results" is the dictionary of
    [_simulate_research]; in an [AgentResponse] it is a value that is
    neither a number nor a text. *)
Definition get_information (query : string) : AgentResponse :=
  mkAgentResponse true
    ("Found information about: " ++ query)
    (Some [("results", VOpaque)])
    (Some ["Searched for '" ++ query ++ "'"; "Analyzed results"]).

End ResearchAgent.

(** ** AutomationAgent *)

Module AutomationAgent.

Definition tool_suggestions : list (string * string) :=
  [ ("file organizer", "Script to automatically organize files by type and date");
    ("backup", "Automated backup script with scheduling");
    ("duplicate finder", "Tool to find and remove duplicate files");
    ("system monitor", "Monitor system resources and send alerts") ].

(** The loop over [tool_suggestions.items()] and the fallback that
    follows it. *)
Definition suggested_tool (tool_description : string) : string :=
  let found :=
    List.find
      (fun entry => contains (lower (fst entry)) (lower tool_description))
      tool_suggestions in
  match found with
  | Some (_, suggestion) =>
      if truthy suggestion then suggestion else "Custom tool for: " ++ tool_description
  | None => "Custom tool for: " ++ tool_description
  end.

Definition create_tool (tool_description : string) : AgentResponse :=
  let suggested_tool := suggested_tool tool_description in
  mkAgentResponse true
    ("Tool suggestion: " ++ suggested_tool)
    (Some [("tool_description", VStr tool_description); ("suggestion", VStr suggested_tool)])
    (Some ["Analyzed request: " ++ tool_description; "Generated tool suggestion"]).

(** An entry of [self.scheduled_tasks]. *)
Record ScheduledTask : Type := mkScheduledTask {
  id : nat;
  task : string;
  schedule_time : string;
  created_at : string;
  status : string
}.

(** [schedule_task], given the list [self.scheduled_tasks] and the
    reading of the clock; it returns the response and the list once the
    new task has been appended. *)
Definition schedule_task (scheduled_tasks : list ScheduledTask) (now : string)
    (task schedule_time : string) : AgentResponse * list ScheduledTask :=
  let task_id := List.length scheduled_tasks + 1 in
  let scheduled_task := mkScheduledTask task_id task schedule_time now "scheduled" in
  (mkAgentResponse true
     ("Task scheduled: " ++ task ++ " at " ++ schedule_time)
     (Some [("task_id", VInt (Z.of_nat task_id)); ("task", VOpaque)])
     (Some ["Added task to schedule with ID " ++ str_of_nat task_id]),
   (scheduled_tasks ++ [scheduled_task])%list).

End AutomationAgent.

(** An outside world whose research agent and tool creation are the
    code's own. *)
Definition with_own_agents (env : Env) : Env :=
  mkEnv (sqlite_fault env) (now_isoformat env)
    (fun query => Ok (ResearchAgent.get_information query))
    (file_agent_find_file env) (file_agent_organize_folder env)
    (file_agent_remove_duplicates env) (automation_run_backup env)
    (automation_organize_desktop env) (automation_schedule_task env)
    (fun tool_description => Ok (AutomationAgent.create_tool tool_description))
    (phone_sort_photos env) (phone_clean_contacts env)
    (domain_check_domain_status env) (domain_fix_dns env).

(** The reply to a research request: the lines following the context
    note. *)
Definition research_lines (query : string) : list string :=
  [ "Here's what I accomplished:";
    "✓ Found information about: " ++ query;
    "  • Searched for '" ++ query ++ "'";
    "  • Analyzed results" ].

(** Task identities are 1, 2, ... in the order of scheduling. *)
Definition ids_sequential (tasks : list AutomationAgent.ScheduledTask) : Prop :=
  map AutomationAgent.id tasks = seq 1 (List.length tasks).

(** ** The file system, as the agents use it *)

(** What the operating system answers: the directories met by [os.walk]
    with the files of each (sub-directories are not used by the code),
    [os.path.join], [os.stat] reduced to the size and the modification
    time in ISO format, the bytes of a file with their MD5 digest in
    hexadecimal, and the writing of a file.  A walk that fails is taken
    to fail as a whole. *)
Record Os : Type := mkOs {
  os_walk : string -> Result (list (string * list string));
  os_path_join : string -> string -> string;
  os_stat : string -> Result (Z * string);
  read_bytes : string -> Result string;
  md5_hexdigest : string -> string;
  write_json : string -> Result unit
}.

(** [d.get(k)] on a string-keyed dictionary: [None] when [k] is absent. *)
Fixpoint dict_find (k : string) (d : list (string * string)) : option string :=
  match d with
  | [] => None
  | (k', v') :: d' => if String.eqb k' k then Some v' else dict_find k d'
  end.

(** [try: ... except Exception as e: return AgentResponse(False, prefix + str(e))] *)
Definition failing_with (prefix : string) (r : Result AgentResponse) : Result AgentResponse :=
  match r with
  | Ok response => Ok response
  | Raise e =>
      if exc_is_Exception e
      then Ok (mkAgentResponse false (prefix ++ exc_str e) None None)
      else Raise e
  end.

Module FileAgent.

(** The files visited by the two nested loops over [os.walk], as
    [(root, file)] pairs in the order of the visit. *)
Definition walked (entries : list (string * list string)) : list (string * string) :=
  flat_map (fun entry => map (fun file => (fst entry, file)) (snd entry)) entries.

Definition _get_file_hash (os : Os) (file_path : string) : Result string :=
  match read_bytes os file_path with
  | Ok content => Ok (md5_hexdigest os content)
  | Raise e => if exc_is_Exception e then Ok "" else Raise e
  end.

(** The loop of [remove_duplicates] over the visited paths, with the
    dictionary [file_hashes] and the list [duplicates] of
    (original, duplicate) pairs it extends. *)
Fixpoint scan_duplicates (os : Os) (paths : list string)
    (file_hashes duplicates : list (string * string))
    : Result (list (string * string) * list (string * string)) :=
  match paths with
  | [] => Ok (file_hashes, duplicates)
  | file_path :: rest =>
      match _get_file_hash os file_path with
      | Raise e => Raise e
      | Ok file_hash =>
          match dict_find file_hash file_hashes with
          | Some original =>
              scan_duplicates os rest file_hashes (duplicates ++ [(original, file_path)])
          | None =>
              scan_duplicates os rest (file_hashes ++ [(file_hash, file_path)]) duplicates
          end
      end
  end.

Definition remove_duplicates (os : Os) (path : string) : Result AgentResponse :=
  failing_with "Error finding duplicates: "
    match os_walk os path with
    | Raise e => Raise e
    | Ok entries =>
        let paths := map (fun f => os_path_join os (fst f) (snd f)) (walked entries) in
        match scan_duplicates os paths [] [] with
        | Raise e => Raise e
        | Ok (file_hashes, duplicates) =>
            Ok (mkAgentResponse true
                  ("Found " ++ str_of_nat (List.length duplicates) ++ " duplicate files")
                  (Some [("duplicates", VOpaque)])
                  (Some [ "Scanned " ++ str_of_nat (List.length file_hashes) ++ " files";
                          "Found " ++ str_of_nat (List.length duplicates)
                            ++ " duplicates" ]))
        end
    end.

(** An entry of [found_files]. *)
Record Found : Type := mkFound {
  path : string;
  name : string;
  size : Z;
  modified : string
}.

(** The loop of [find_file] over the visited files. *)
Fixpoint find_loop (os : Os) (search_terms : list string) (files : list (string * string))
    (found_files : list Found) : Result (list Found) :=
  match files with
  | [] => Ok found_files
  | (root, file) :: rest =>
      let file_lower := lower file in
      if any_in search_terms file_lower then
        let file_path := os_path_join os root file in
        match os_stat os file_path with
        | Raise e => Raise e
        | Ok (st_size, st_mtime) =>
            find_loop os search_terms rest
              (found_files ++ [mkFound file_path file st_size st_mtime])
        end
      else find_loop os search_terms rest found_files
  end.

(** The list [found_files] at the end of the [try] block. *)
Definition found_by (os : Os) (name_or_keywords search_path : string) : Result (list Found) :=
  let search_terms := split (lower name_or_keywords) in
  match os_walk os search_path with
  | Raise e => Raise e
  | Ok entries => find_loop os search_terms (walked entries) []
  end.

Definition find_file (os : Os) (name_or_keywords search_path : string) : Result AgentResponse :=
  failing_with "Error searching for files: "
    match found_by os name_or_keywords search_path with
    | Raise e => Raise e
    | Ok found_files =>
        Ok (mkAgentResponse true
              ("Found " ++ str_of_nat (List.length found_files) ++ " files matching '"
                 ++ name_or_keywords ++ "'")
              (Some [("files", VOpaque)])
              (Some [ "Searched in " ++ search_path;
                      "Found " ++ str_of_nat (List.length found_files) ++ " matches" ]))
    end.

End FileAgent.

(** A file name satisfies a search: one of the lower-cased terms occurs
    in the lower-cased name. *)
Definition name_matches (name_or_keywords file : string) : bool :=
  any_in (split (lower name_or_keywords)) (lower file).

(** A small tree used to run the file agent: two directories, one file
    that cannot be read or inspected. *)
Definition sample_os : Os :=
  mkOs
    (fun _ => Ok [(".", ["Report.txt"; "notes.md"]); ("./old", ["report.bak"; "locked.db"])])
    (fun root file => root ++ "/" ++ file)
    (fun file_path =>
       if String.eqb file_path "./old/locked.db"
       then Raise (mkExc "PermissionError" true "Permission denied")
       else Ok (12%Z, "2024-03-01T10:00:00"))
    (fun file_path =>
       if String.eqb file_path "./old/locked.db"
       then Raise (mkExc "PermissionError" true "Permission denied")
       else if String.eqb file_path "./notes.md" then Ok "notes" else Ok "report")
    (fun content => "md5:" ++ content)
    (fun _ => Ok tt).


(** ** PhoneAgent *)

Module PhoneAgent.

Record Contact : Type := mkContact {
  name : string;
  phone : string;
  email : string
}.

Definition sample_contacts : list Contact :=
  [ mkContact "John Doe" "555-1234" "john@example.com";
    mkContact "john doe" "555-1234" "john.doe@example.com";
    mkContact "Jane Smith" "555-5678" "jane@example.com";
    mkContact "Bob Johnson" "" "bob@example.com" ].

(** [contact['name'].lower().strip()] *)
Definition name_lower (contact : Contact) : string := strip (lower (name contact)).

(** The first loop of [clean_contacts], with the set [seen_names] and the
    three lists it extends. *)
Fixpoint dedupe (contacts : list Contact) (seen_names : list string)
    (cleaned_contacts duplicates_found : list Contact) (actions_taken : list string)
    : list Contact * list Contact * list string :=
  match contacts with
  | [] => (cleaned_contacts, duplicates_found, actions_taken)
  | contact :: rest =>
      if negb (existsb (String.eqb (name_lower contact)) seen_names) then
        dedupe rest (seen_names ++ [name_lower contact])
          (cleaned_contacts ++ [contact]) duplicates_found actions_taken
      else
        dedupe rest seen_names cleaned_contacts (duplicates_found ++ [contact])
          (actions_taken ++ ["Found duplicate: " ++ name contact])
  end.

(** The second loop: what is missing in the contacts kept. *)
Definition missing_information (cleaned_contacts : list Contact) : list string :=
  flat_map
    (fun contact =>
       ((if truthy (phone contact) then []
         else [("Missing phone for: " ++ name contact)%string])
          ++ (if truthy (email contact) then []
              else [("Missing email for: " ++ name contact)%string]))%list)
    cleaned_contacts.

Definition clean_contacts (os : Os) (contacts_file : string) : Result AgentResponse :=
  failing_with "Contact cleaning failed: "
    match write_json os contacts_file with
    | Raise e => Raise e
    | Ok _ =>
        let '(cleaned_contacts, duplicates_found, actions_taken) :=
          dedupe sample_contacts [] [] [] [] in
        let actions_taken := (actions_taken ++ missing_information cleaned_contacts)%list in
        Ok (mkAgentResponse true
              ("Contacts cleaned - " ++ str_of_nat (List.length duplicates_found)
                 ++ " duplicates found, " ++ str_of_nat (List.length cleaned_contacts)
                 ++ " contacts remaining")
              (Some [ ("original_count", VInt (Z.of_nat (List.length sample_contacts)));
                      ("cleaned_count", VInt (Z.of_nat (List.length cleaned_contacts)));
                      ("duplicates_removed",
                       VInt (Z.of_nat (List.length duplicates_found))) ])
              (Some actions_taken))
    end.

End PhoneAgent.

(** ** ProjectBrainSaver: one round of the command loop *)

Module ProjectBrainSaver.

(** What a round prints; the fixed texts are named, not spelled out. *)
Inductive Printed : Type :=
| Processing                      (* "Processing your request..." *)
| Reply (response : string)       (* the reply of the orchestrator *)
| ErrorOccurred (text : string)   (* "An error occurred: <text>" *)
| HelpText                        (* show_help *)
| StatusInfo                      (* show_status *)
| ShuttingDown                    (* the two lines of shutdown *)
| Goodbye.

(** [self.running] and the lines printed so far. *)
Record Cli : Type := mkCli {
  running : bool;
  printed : list Printed
}.

Inductive Step : Type :=
| Continue    (* [continue], or the end of the loop body *)
| Break.      (* [break] *)

Definition print (p : Printed) (cli : Cli) : Cli :=
  mkCli (running cli) (printed cli ++ [p]).

Definition shutdown (cli : Cli) : Cli :=
  mkCli false (printed cli ++ [ShuttingDown]).

(** The two [except] clauses of the loop: KeyboardInterrupt first, then
    Exception; any other fault leaves the loop. *)
Definition on_fault (e : PyExc) (cli : Cli) (st : State) : Result Step * Cli * State :=
  if String.eqb (exc_class e) "KeyboardInterrupt" then
    (Ok Break, shutdown (print Goodbye cli), st)
  else if exc_is_Exception e then
    (Ok Continue, print (ErrorOccurred (exc_str e)) cli, st)
  else (Raise e, cli, st).

(** One pass through the body of [while self.running], given what
    [input] returns or raises; [show_status] reads the clock. *)
Definition run_cli_round (env : Env) (session : string) (line : Result string)
    (cli : Cli) (st : State) : Result Step * Cli * State :=
  match line with
  | Raise e => on_fault e cli st
  | Ok typed =>
      let user_input := strip typed in
      if negb (truthy user_input) then (Ok Continue, cli, st)
      else if existsb (String.eqb (lower user_input)) ["exit"; "quit"; "bye"] then
        (Ok Break, shutdown cli, st)
      else if String.eqb (lower user_input) "help" then
        (Ok Continue, print HelpText cli, st)
      else if String.eqb (lower user_input) "status" then
        (Ok Continue, print StatusInfo cli,
         mkState (db st) (accesses st) (S (clock_reads st)) (dispatched st))
      else
        let cli := print Processing cli in
        match process_request env session user_input st with
        | (Ok response, st') => (Ok Continue, print (Reply response) cli, st')
        | (Raise e, st') => on_fault e cli st'
        end
  end.

End ProjectBrainSaver.

(** The lines that the command loop takes for itself. *)
Definition cli_command (typed : string) : bool :=
  existsb (String.eqb (lower (strip typed))) ["exit"; "quit"; "bye"; "help"; "status"].

(** What the first loop of [clean_contacts] has established after the
    contacts [seen]: each of them went to one of the two lists, the kept
    contacts have pairwise different lower-cased stripped names, every
    contact seen has its name among the kept ones, and one action was
    logged per duplicate. *)
Definition dedupe_invariant (seen cleaned duplicates : list PhoneAgent.Contact)
    (actions : list string) : Prop :=
  List.length cleaned + List.length duplicates = List.length seen
  /\ NoDup (map PhoneAgent.name_lower cleaned)
  /\ (forall c, In c seen ->
        exists k, In k cleaned /\ PhoneAgent.name_lower k = PhoneAgent.name_lower c)
  /\ (forall c, In c cleaned \/ In c duplicates -> In c seen)
  /\ List.length actions = List.length duplicates.

(** An outside world whose store answers the first access only. *)
Definition write_fails_env : Env :=
  mkEnv
    (fun n =>
       match n with
       | O => None
       | S _ => Some (mkExc "OperationalError" true "database is locked")
       end)
    (now_isoformat sample_env)
    (research_get_information sample_env) (file_agent_find_file sample_env)
    (file_agent_organize_folder sample_env) (file_agent_remove_duplicates sample_env)
    (automation_run_backup sample_env) (automation_organize_desktop sample_env)
    (automation_schedule_task sample_env) (automation_create_tool sample_env)
    (phone_sort_photos sample_env) (phone_clean_contacts sample_env)
    (domain_check_domain_status sample_env) (domain_fix_dns sample_env).

(** * Properties *)

(** ** Python string primitives on sample inputs *)

Example lower_mixed : lower "Organize MY Phone_42" = "organize my phone_42".
Proof. reflexivity. Qed.

Example split_runs :
  split ("  alpha  Beta" ++ nl ++ "gamma ") = ["alpha"; "Beta"; "gamma"].
Proof. reflexivity. Qed.

Example split_blank : split "   " = [] /\ split "" = [].
Proof. split; reflexivity. Qed.

Example contains_middle :
  contains "my" "organize my phone" = true /\ contains "files" "organize my phone" = false.
Proof. split; reflexivity. Qed.

Example replace_twice : replace "find" "" "find the file finder" = " the file er".
Proof. reflexivity. Qed.

Example strip_both : strip "  a b  " = "a b" /\ strip_chars ".,!?" "example.com." = "example.com".
Proof. split; reflexivity. Qed.

Example join_tags : join "," ["phone"; "memory"] = "phone,memory" /\ join "," [] = "".
Proof. split; reflexivity. Qed.

Example str_of_nat_12 : str_of_nat 12 = "12" /\ str_of_int (-7) = "-7".
Proof. split; reflexivity. Qed.

Example like_wildcards :
  like "%a_c%" "xxabcxx" = true /\ like "%a_c%" "xxacxx" = false /\ like "%_%" "" = false.
Proof. repeat split; reflexivity. Qed.

Example like_ignores_case : like "%Report%" "annual REPORT 2024" = true.
Proof. reflexivity. Qed.

(** ** Substring lemmas *)

Section Substrings.

Lemma startswith_app_l (a b s : string) :
  startswith (a ++ b) s = true -> startswith a s = true.
Proof.
  revert s; induction a as [| c a IH]; intros s H; [ reflexivity | ].
  destruct s as [| d s]; simpl in *; [ discriminate | ].
  apply andb_true_iff in H as [Hc Hs].
  rewrite Hc; simpl; auto.
Qed.

(** A text containing a phrase contains every prefix of the phrase. *)
Lemma contains_app_l (a b s : string) :
  contains (a ++ b) s = true -> contains a s = true.
Proof.
  induction s as [| d s IH]; simpl; intros H.
  - apply orb_true_iff in H as [H | H]; [ | discriminate ].
    apply startswith_app_l in H; rewrite H; reflexivity.
  - apply orb_true_iff in H as [H | H].
    + apply startswith_app_l in H; rewrite H; reflexivity.
    + rewrite (IH H); apply orb_true_r.
Qed.

Lemma organize_my_has_organize (s : string) :
  contains "organize my" s = true -> contains "organize" s = true.
Proof. exact (contains_app_l "organize" " my" s). Qed.

Lemma any_in_of_member (w : string) (words : list string) (s : string) :
  In w words -> contains w s = true -> any_in words s = true.
Proof.
  intros Hin Hw; unfold any_in; apply existsb_exists; exists w; auto.
Qed.

End Substrings.

(** ** The classifier *)

Section Classifier.

Ltac split_ifs :=
  repeat match goal with
    | |- context [if ?b then _ else _] => destruct b eqn:?
    end.

(** The override keeps everything but the handler list. *)
Lemma override_keeps_intent (s : string) (i : Interpretation) :
  primary_intent (multi_agent_override s i) = primary_intent i
  /\ parameters (multi_agent_override s i) = parameters i
  /\ confidence (multi_agent_override s i) = confidence i.
Proof. unfold multi_agent_override; split_ifs; repeat split. Qed.

(** The cascade answers for the first triggered category, and for it
    alone. *)
Lemma cascade_first_triggered (s : string) :
  match first_triggered s with
  | Some c =>
      primary_intent (primary_cascade s) = intent_label c
      /\ agents_needed (primary_cascade s) = [handler_name c]
  | None => primary_cascade s = mkInterpretation "unknown" [] [] 0.0
  end.
Proof.
  unfold first_triggered, cascade_order, triggered, primary_cascade.
  cbn [List.find trigger_words].
  destruct (any_in ["file"; "folder"; "organize"; "find"; "duplicate"] s);
    [ split_ifs; split; reflexivity | ].
  destruct (any_in ["search"; "research"; "find information"; "look up"] s);
    [ split; reflexivity | ].
  destruct (any_in ["domain"; "dns"; "website"; "server"] s);
    [ split_ifs; split; reflexivity | ].
  destruct (any_in ["phone"; "photos"; "contacts"; "mobile"] s);
    [ split_ifs; split; reflexivity | ].
  destruct (any_in ["automate"; "backup"; "schedule"; "desktop"; "tool"] s);
    [ split_ifs; split; reflexivity | ].
  destruct (any_in ["remember"; "recall"; "previous"; "last time"] s);
    [ split; reflexivity | reflexivity ].
Qed.

Lemma first_triggered_is_triggered (s : string) (c : Category) :
  first_triggered s = Some c -> triggered c s = true.
Proof. intros H; apply find_some in H; tauto. Qed.

Lemma triggered_first_exists (s : string) (c : Category) :
  triggered c s = true -> exists c0, first_triggered s = Some c0.
Proof.
  intros H; destruct (first_triggered s) as [c0 |] eqn:E; [ eauto | ].
  unfold first_triggered in E.
  assert (In c cascade_order) by (destruct c; simpl; tauto).
  rewrite (find_none _ _ E c) in H; [ discriminate | assumption ].
Qed.

Lemma first_triggered_minimal (s : string) (c c' : Category) :
  first_triggered s = Some c -> triggered c' s = true -> rank c <= rank c'.
Proof.
  unfold first_triggered, cascade_order; cbn [List.find].
  intros H H'.
  repeat match type of H with
    | (if triggered ?k s then _ else _) = _ =>
        destruct (triggered k s) eqn:?;
        [ injection H as <-; destruct c'; simpl; try lia; congruence | ]
    end.
  discriminate.
Qed.

(** C3: the input "organize my phone and files" is classified with
    agents_needed equal to exactly ["phone"; "memory"]: the phone branch
    of the override wins, the computer/files branch adds nothing, and
    the handler "file" produced by the cascade is replaced, not kept. *)
Theorem override_phone_and_files :
  agents_needed (interpret_request "organize my phone and files") = ["phone"; "memory"]
  /\ agents_needed (primary_cascade (lower "organize my phone and files")) = ["file"]
  /\ contains "files" (lower "organize my phone and files") = true.
Proof. repeat split; reflexivity. Qed.

(** C4: when the lower-cased input holds trigger words of two different
    categories, exactly one branch of the cascade fires, the one of the
    first triggered category in the order file-management, research,
    domain-management, phone-management, automation, memory-recall: the
    intent is that category's label and the cascade lists that
    category's handler alone. *)
Theorem first_match_wins (user_input : string) (c1 c2 : Category) :
  c1 <> c2 ->
  triggered c1 (lower user_input) = true ->
  triggered c2 (lower user_input) = true ->
  exists c,
    first_triggered (lower user_input) = Some c
    /\ rank c <= rank c1 /\ rank c <= rank c2
    /\ primary_intent (interpret_request user_input) = intent_label c
    /\ agents_needed (primary_cascade (lower user_input)) = [handler_name c].
Proof.
  intros _ H1 H2.
  destruct (triggered_first_exists _ _ H1) as [c Hc].
  exists c; split; [ assumption | ].
  split; [ eapply first_triggered_minimal; eassumption | ].
  split; [ eapply first_triggered_minimal; eassumption | ].
  pose proof (cascade_first_triggered (lower user_input)) as Hcas.
  rewrite Hc in Hcas; destruct Hcas as [Hi Ha].
  split; [ | assumption ].
  unfold interpret_request.
  destruct (override_keeps_intent (lower user_input) (primary_cascade (lower user_input)))
    as [-> _].
  assumption.
Qed.

Lemma first_match_wins_witness :
  exists c,
    first_triggered (lower "Research my PHONE backup") = Some c
    /\ rank c <= rank PhoneManagement /\ rank c <= rank Research
    /\ primary_intent (interpret_request "Research my PHONE backup") = intent_label c
    /\ agents_needed (primary_cascade (lower "Research my PHONE backup")) = [handler_name c].
Proof.
  apply (first_match_wins "Research my PHONE backup" PhoneManagement Research);
    [ discriminate | reflexivity | reflexivity ].
Defined.

(** C5: an input whose lower-cased text holds no trigger word of any
    category is classified with primary_intent "unknown", an empty
    agents_needed and confidence 0.0 (and no parameter). *)
Theorem no_trigger_word_unknown (user_input : string) :
  (forall c w, In w (trigger_words c) -> contains w (lower user_input) = false) ->
  interpret_request user_input = mkInterpretation "unknown" [] [] 0.0.
Proof.
  intros Hnone.
  assert (Hfirst : first_triggered (lower user_input) = None).
  { destruct (first_triggered (lower user_input)) as [c |] eqn:E; [ | reflexivity ].
    apply first_triggered_is_triggered in E.
    unfold triggered, any_in in E.
    apply existsb_exists in E as [w [Hin Hw]].
    rewrite (Hnone c w Hin) in Hw; discriminate. }
  pose proof (cascade_first_triggered (lower user_input)) as Hcas.
  rewrite Hfirst in Hcas.
  unfold interpret_request, multi_agent_override.
  destruct (contains "organize my" (lower user_input)) eqn:E; [ | assumption ].
  apply organize_my_has_organize in E.
  rewrite (Hnone FileManagement "organize") in E; [ discriminate | simpl; tauto ].
Qed.

Lemma no_trigger_word_unknown_witness :
  interpret_request "Hello there, how are you?" = mkInterpretation "unknown" [] [] 0.0.
Proof.
  apply no_trigger_word_unknown.
  intros c w Hin.
  destruct c; simpl in Hin;
    repeat (destruct Hin as [<- | Hin]; [ reflexivity | ]); contradiction.
Defined.

End Classifier.

(** ** LIKE against literal terms *)

Section LikeLiteral.








End LikeLiteral.

(** ** Newest first *)

Section NewestFirst.

Lemma ascii_compare_spec (a b : ascii) :
  CompareSpec (a = b) (N_of_ascii a < N_of_ascii b)%N (N_of_ascii b < N_of_ascii a)%N
    (Ascii.compare a b).
Proof.
  unfold Ascii.compare.
  destruct (N.compare_spec (N_of_ascii a) (N_of_ascii b)) as [E | L | G];
    constructor; auto.
  rewrite <- (ascii_N_embedding a), <- (ascii_N_embedding b), E; reflexivity.
Qed.

Lemma string_leb_trans (a b c : string) :
  String.leb a b = true -> String.leb b c = true -> String.leb a c = true.
Proof.
  unfold String.leb; revert b c.
  induction a as [| x a IH]; intros [| y b] [| z c]; simpl; try easy.
  destruct (ascii_compare_spec x y) as [-> | Hxy | Hxy]; try easy.
  - destruct (ascii_compare_spec y z) as [-> | Hyz | Hyz]; try easy.
    apply IH.
  - destruct (ascii_compare_spec y z) as [<- | Hyz | Hyz]; try easy.
    + destruct (ascii_compare_spec x y) as [-> | H | H]; try easy; lia.
    + destruct (ascii_compare_spec x z) as [-> | H | H]; try easy; lia.
Qed.

Lemma insert_desc_perm (r : Interaction) (l : list Interaction) :
  Permutation (insert_desc r l) (r :: l).
Proof.
  induction l as [| x l IH]; simpl; [ reflexivity | ].
  destruct (String.leb (timestamp x) (timestamp r)); [ reflexivity | ].
  rewrite IH; apply perm_swap.
Qed.

Lemma order_by_timestamp_desc_perm (l : list Interaction) :
  Permutation (order_by_timestamp_desc l) l.
Proof.
  induction l as [| x l IH]; simpl; [ reflexivity | ].
  rewrite insert_desc_perm, IH; reflexivity.
Qed.

Lemma insert_desc_sorted (r : Interaction) (l : list Interaction) :
  StronglySorted row_not_older l -> StronglySorted row_not_older (insert_desc r l).
Proof.
  induction 1 as [| x l Hl IH Hx]; simpl.
  - repeat constructor.
  - destruct (String.leb (timestamp x) (timestamp r)) eqn:E.
    + constructor; [ constructor; assumption | ].
      constructor; [ exact E | ].
      eapply Forall_impl; [ | exact Hx ].
      intros y Hy; unfold row_not_older in *.
      eapply string_leb_trans; eassumption.
    + constructor; [ assumption | ].
      eapply Permutation_Forall; [ symmetry; apply insert_desc_perm | ].
      constructor; [ | assumption ].
      unfold row_not_older.
      destruct (String.leb_total (timestamp x) (timestamp r)) as [H | H];
        [ congruence | exact H ].
Qed.

Lemma order_by_timestamp_desc_sorted (l : list Interaction) :
  StronglySorted row_not_older (order_by_timestamp_desc l).
Proof.
  induction l as [| x l IH]; simpl; [ constructor | ].
  apply insert_desc_sorted; assumption.
Qed.


Lemma filter_all {A : Type} (l : list A) : List.filter (fun _ => true) l = l.
Proof. induction l as [| x l IH]; simpl; congruence. Qed.

End NewestFirst.

(** ** MemoryAgent: retrieval *)

Section Retrieval.

Variable env : Env.

(** What one call of [retrieve_relevant] does. *)
Lemma retrieve_relevant_run (query : string) (limit : Z) (st : State) :
  retrieve_relevant env query limit st =
  match sqlite_fault env (accesses st) with
  | Some e => (Raise e, accessed st)
  | None =>
      (Ok (map as_dict
             (select_interactions
                (fun row =>
                   forallb (fun params => condition params row)
                     (map term_params (split (lower query))))
                limit (interactions (db st)))),
       accessed st)
  end.
Proof.
  unfold retrieve_relevant, bind, sqlite3_connect, accessed.
  destruct (sqlite_fault env (accesses st)); [ reflexivity | ].
  fold term_params.
  destruct (map term_params (split (lower query))); reflexivity.
Qed.





End Retrieval.


(** Plain text leaves out the texts on which the engine and Python are
    not the ones modelled: a text holding a NUL, a letter beyond ASCII. *)
Example plain_text_scope :
  plain_text "100% done_now" = true
  /\ plain_text (String "000" "after the NUL") = false
  /\ plain_text (String "201" "COLE") = false
  /\ forallb plain_row six_rows = true.
Proof. repeat split; reflexivity. Qed.


(** The two retrievals on the six stored rows. *)
Example empty_query_on_six_rows :
  fst (retrieve_relevant sample_env "" 5 six_rows_state)
  = Ok (map as_dict
          [ mkInteraction 4 "2024-03-01T10:07:30.250000" "backup my disk" "backed up" "s" "automation,automation";
            mkInteraction 5 "2024-03-01T10:07:30" "sort photos" "photos sorted" "s" "phone_management,phone";
            mkInteraction 2 "2024-03-01T10:05:00" "beta only" "nothing" "s" "unknown_intent";
            mkInteraction 1 "2024-03-01T10:00:00" "find the Alpha report" "searched alpha" "s" "file_management,file";
            mkInteraction 3 "2024-03-01T09:00:00" "Alpha test" "ran BETA suite" "s" "unknown_intent" ]).
Proof. reflexivity. Qed.

Example alpha_beta_on_six_rows :
  fst (retrieve_relevant sample_env "alpha  BETA" 5 six_rows_state)
  = Ok [ mkRecalled "2024-03-01T09:00:00" "Alpha test" "ran BETA suite" "unknown_intent" ].
Proof. reflexivity. Qed.


(** ** MemoryAgent: preferences *)

Section Preferences.

Variable env : Env.

Lemma set_preference_run (k v : string) (st : State) :
  reachable env (accesses st) ->
  set_preference env k v st =
  (Ok tt,
   mkState
     (mkDatabase (interactions (db st))
        (List.filter (fun p => negb (has_key k p)) (user_preferences (db st))
           ++ [mkPreference k v (now_isoformat env (clock_reads st))])
        (sqlite_sequence (db st)))
     (S (accesses st)) (S (clock_reads st)) (dispatched st)).
Proof.
  intros Hup; unfold reachable in Hup.
  unfold set_preference, bind, sqlite3_connect, datetime_now_isoformat, commit, set_db.
  rewrite Hup; reflexivity.
Qed.

Lemma get_preference_run (k : string) (st : State) :
  reachable env (accesses st) ->
  get_preference env k st =
  (Ok (option_map value (List.find (has_key k) (user_preferences (db st)))), accessed st).
Proof.
  intros Hup; unfold reachable in Hup.
  unfold get_preference, bind, sqlite3_connect, ret, accessed.
  rewrite Hup.
  destruct (List.find (has_key k) (user_preferences (db st))); reflexivity.
Qed.

Lemma has_key_refl (k v t : string) : has_key k (mkPreference k v t) = true.
Proof. unfold has_key; apply String.eqb_refl. Qed.

(** After the conflicting row is deleted, the new row is the only one
    found under its key. *)
Lemma find_after_replace (k : string) (p : Preference) (l : list Preference) :
  has_key k p = true ->
  List.find (has_key k) (List.filter (fun q => negb (has_key k q)) l ++ [p]) = Some p
  /\ List.filter (has_key k) (List.filter (fun q => negb (has_key k q)) l ++ [p]) = [p].
Proof.
  intros Hp; induction l as [| q l [IHf IHc]]; simpl.
  - rewrite Hp; split; reflexivity.
  - destruct (has_key k q) eqn:E; simpl; [ split; assumption | ].
    rewrite E; split; assumption.
Qed.

(** C9: when the store answers, set_preference(k, v) followed by
    get_preference(k) gives v, a further set_preference(k, v2) followed by
    get_preference(k) gives v2, and after each write exactly one row is
    stored under k, whatever the table held before. *)
Theorem preference_upsert_roundtrip (k v v2 : string) (st : State) :
  (forall n, reachable env n) ->
  let st1 := snd (set_preference env k v st) in
  let st2 := snd (get_preference env k st1) in
  let st3 := snd (set_preference env k v2 st2) in
  fst (set_preference env k v st) = Ok tt
  /\ fst (get_preference env k st1) = Ok (Some v)
  /\ rows_for_key k (db st1) = 1
  /\ fst (set_preference env k v2 st2) = Ok tt
  /\ fst (get_preference env k st3) = Ok (Some v2)
  /\ rows_for_key k (db st3) = 1.
Proof.
  intros Hup; cbv zeta.
  rewrite (set_preference_run k v st (Hup _)); cbn [fst snd].
  rewrite get_preference_run by apply Hup; cbn [fst snd].
  rewrite (set_preference_run k v2 _ (Hup _)); cbn [fst snd].
  rewrite get_preference_run by apply Hup; cbn [fst snd].
  unfold rows_for_key, accessed; cbn [db user_preferences].
  repeat match goal with
    | |- context [(List.filter (fun p => negb (has_key k p)) ?l ++ [mkPreference k ?x ?t])%list] =>
        let H := fresh "H" in
        destruct (find_after_replace k (mkPreference k x t) l (has_key_refl k x t)) as [H H'];
        rewrite ?H, ?H'; clear H H'
    end.
  repeat split.
Qed.

End Preferences.

Lemma preference_upsert_roundtrip_witness :
  let st1 := snd (set_preference sample_env "theme" "dark" fresh) in
  let st2 := snd (get_preference sample_env "theme" st1) in
  let st3 := snd (set_preference sample_env "theme" "light" st2) in
  fst (set_preference sample_env "theme" "dark" fresh) = Ok tt
  /\ fst (get_preference sample_env "theme" st1) = Ok (Some "dark")
  /\ rows_for_key "theme" (db st1) = 1
  /\ fst (set_preference sample_env "theme" "light" st2) = Ok tt
  /\ fst (get_preference sample_env "theme" st3) = Ok (Some "light")
  /\ rows_for_key "theme" (db st3) = 1.
Proof.
  apply (preference_upsert_roundtrip sample_env "theme" "dark" "light" fresh).
  intros n; reflexivity.
Defined.

Example preference_table_after_upsert :
  user_preferences
    (db (snd (set_preference sample_env "theme" "light"
                (snd (set_preference sample_env "lang" "en"
                        (snd (set_preference sample_env "theme" "dark" fresh)))))))
  = [mkPreference "lang" "en" "T1"; mkPreference "theme" "light" "T2"].
Proof. reflexivity. Qed.

(** ** The turn: effects of each step *)

Section TurnEffects.

Variable env : Env.
Variable session : string.

Lemma bind_run {A B : Type} (m : M A) (k : A -> M B) (st : State) :
  bind m k st =
  match m st with
  | (Ok a, st') => k a st'
  | (Raise e, st') => (Raise e, st')
  end.
Proof. reflexivity. Qed.

Lemma quiet_ret {A : Type} (a : A) : quiet (ret a).
Proof. intros st; split; reflexivity. Qed.

Lemma quiet_raise {A : Type} (e : PyExc) : quiet (@raise A e).
Proof. intros st; split; reflexivity. Qed.

Lemma quiet_call {A : Type} (r : Result A) : quiet (call r).
Proof. intros st; split; reflexivity. Qed.

Lemma quiet_bind {A B : Type} (m : M A) (k : A -> M B) :
  quiet m -> (forall a, quiet (k a)) -> quiet (bind m k).
Proof.
  intros Hm Hk st; unfold bind.
  destruct (Hm st) as [Hm1 Hm2]; destruct (m st) as [[a | e] st1]; cbn [snd] in *.
  - destruct (Hk a st1) as [H1 H2]; split; congruence.
  - split; assumption.
Qed.

Lemma quiet_try_except {A : Type} (body : M A) (handler : PyExc -> M A) :
  quiet body -> (forall e, quiet (handler e)) -> quiet (try_except body handler).
Proof.
  intros Hb Hh st; unfold try_except.
  destruct (Hb st) as [Hb1 Hb2]; destruct (body st) as [[a | e] st1]; cbn [snd] in *;
    [ split; assumption | ].
  destruct (exc_is_Exception e); [ | split; assumption ].
  destruct (Hh e st1) as [H1 H2]; split; congruence.
Qed.

Lemma quiet_returning (r : Result AgentResponse) : quiet (returning r).
Proof. apply quiet_bind; [ apply quiet_call | intros a; apply quiet_ret ]. Qed.

Lemma quiet_retrieve_relevant (query : string) (limit : Z) :
  quiet (retrieve_relevant env query limit).
Proof.
  intros st; rewrite retrieve_relevant_run.
  destruct (sqlite_fault env (accesses st)); split; reflexivity.
Qed.

Create HintDb turn.

#[local] Hint Resolve quiet_ret quiet_raise quiet_call quiet_returning
  quiet_retrieve_relevant : turn.

Ltac quiet_steps :=
  repeat first
    [ progress eauto with turn
    | apply quiet_bind; [ | intro ]
    | match goal with
      | |- quiet (if ?b then _ else _) => destruct b
      | |- quiet (match ?o with Some _ => _ | None => _ end) => destruct o
      end ].

Lemma note_dispatch_then_quiet {A : Type} (agent_name : string) (m : M A) (st : State) :
  quiet m ->
  db (snd ((note_dispatch agent_name ;;; m) st)) = db st
  /\ dispatched (snd ((note_dispatch agent_name ;;; m) st))
     = (dispatched st ++ [agent_name])%list.
Proof.
  intros Hq; unfold bind, note_dispatch.
  match goal with
  | |- context [m ?st1] => destruct (Hq st1) as [H1 H2]; rewrite H1, H2
  end.
  split; reflexivity.
Qed.

(** The body of the [try] block of [_execute_agent_action] and its
    [except] clause touch neither the database nor the dispatch log. *)
Lemma execute_agent_action_effect (agent_name : string)
    (parameters : list (string * string)) (request : string) (st : State) :
  db (snd (_execute_agent_action env agent_name parameters request st)) = db st
  /\ dispatched (snd (_execute_agent_action env agent_name parameters request st))
     = (dispatched st ++ [agent_name])%list.
Proof.
  unfold _execute_agent_action; apply note_dispatch_then_quiet.
  apply quiet_try_except; [ | intro; apply quiet_ret ].
  unfold falls_through; cbv zeta; quiet_steps.
Qed.

(** Every [Exception] raised while an agent is invoked is caught. *)
Lemma execute_agent_action_guarded (agent_name : string)
    (parameters : list (string * string)) (request : string) :
  guarded (_execute_agent_action env agent_name parameters request).
Proof.
  intros st e; unfold _execute_agent_action, bind at 1, note_dispatch.
  match goal with
  | |- context [try_except ?body ?handler ?st1] =>
      unfold try_except; destruct (body st1) as [[a | e1] st2]
  end; cbn [fst]; [ discriminate | ].
  destruct (exc_is_Exception e1) eqn:E; cbn [ret fst]; [ discriminate | ].
  intros [= <-]; exact E.
Qed.

Lemma save_interaction_run (request output tags : string) (st : State) :
  save_interaction env request output session tags st =
  match sqlite_fault env (accesses st) with
  | Some e => (Raise e, accessed st)
  | None => (Ok tt, saved env request output session tags st)
  end.
Proof.
  unfold save_interaction, bind, sqlite3_connect, datetime_now_isoformat, commit, set_db,
    accessed, saved.
  destruct (sqlite_fault env (accesses st)); reflexivity.
Qed.

(** The dispatch loop leaves the database alone; when it completes, it
    has handed every listed agent, in order, to [_execute_agent_action]. *)
Lemma dispatch_loop_effect (agents : list string) (parameters : list (string * string))
    (request : string) (responses : list AgentResponse) (all_actions : list string)
    (st : State) :
  db (snd (dispatch_loop env agents parameters request responses all_actions st)) = db st
  /\ (forall collected,
        fst (dispatch_loop env agents parameters request responses all_actions st)
        = Ok collected ->
        dispatched (snd (dispatch_loop env agents parameters request responses all_actions st))
        = (dispatched st ++ agents)%list).
Proof.
  revert responses all_actions st.
  induction agents as [| agent_name rest IH]; intros responses all_actions st.
  - cbn; split; [ reflexivity | intros _ _; symmetry; apply app_nil_r ].
  - cbn [dispatch_loop]; rewrite bind_run.
    destruct (execute_agent_action_effect agent_name parameters request st) as [Hdb Hlog].
    destruct (_execute_agent_action env agent_name parameters request st)
      as [[[response |] | e] st1]; cbn [snd] in Hdb, Hlog.
    + match goal with
      | |- context [dispatch_loop env rest parameters request ?rs ?acts st1] =>
          destruct (IH rs acts st1) as [IHdb IHlog]
      end.
      split; [ congruence | ].
      intros collected Hok; rewrite (IHlog collected Hok), Hlog, <- app_assoc; reflexivity.
    + cbn; split; [ exact Hdb | discriminate ].
    + cbn; split; [ exact Hdb | discriminate ].
Qed.

End TurnEffects.

(** ** The turn *)

Section Turn.

Variable env : Env.
Variable session : string.

(** What [process_request] does once the first retrieval has answered and
    the intent is known. *)
Lemma process_request_run (request : string) (st : State) :
  sqlite_fault env (accesses st) = None ->
  primary_intent (interpret_request request) <> "unknown" ->
  let i := interpret_request request in
  let past :=
    map as_dict
      (select_interactions
         (fun row =>
            forallb (fun params => condition params row)
              (map term_params (split (lower request))))
         3 (interactions (db st))) in
  let summary :=
    match past with
    | [] => ""
    | _ :: _ => "Found " ++ str_of_nat (List.length past) ++ " relevant past interactions. "
    end in
  process_request env session request st =
  match dispatch_loop env (agents_needed i) (parameters i) request [] [] (accessed st) with
  | (Raise e, st1) => (Raise e, st1)
  | (Ok collected, st1) =>
      let reply := _compile_response request i (fst collected) summary in
      let tags := primary_intent i ++ "," ++ join "," (agents_needed i) in
      match sqlite_fault env (accesses st1) with
      | Some e => (Raise e, accessed st1)
      | None => (Ok reply, saved env request reply session tags st1)
      end
  end.
Proof.
  intros Hup Hknown; cbv zeta.
  unfold process_request.
  rewrite bind_run, retrieve_relevant_run, Hup.
  destruct (String.eqb (primary_intent (interpret_request request)) "unknown") eqn:E;
    [ apply String.eqb_eq in E; contradiction | ].
  rewrite bind_run.
  destruct (dispatch_loop env (agents_needed (interpret_request request))
              (parameters (interpret_request request)) request [] [] (accessed st))
    as [[collected | e] st1]; [ | reflexivity ].
  rewrite bind_run, save_interaction_run.
  destruct (sqlite_fault env (accesses st1)); reflexivity.
Qed.

(** C7: when a turn completes for a request whose primary_intent is not
    "unknown", exactly one interaction has been appended; it holds the
    request and the reply, its context_tags are primary_intent, a comma
    and the comma-joined agents_needed, and these agents_needed are the
    agents that were dispatched during the turn, in that order. *)
Theorem context_tags_follow_classification (request reply : string) (st st' : State) :
  process_request env session request st = (Ok reply, st') ->
  primary_intent (interpret_request request) <> "unknown" ->
  exists row,
    interactions (db st') = (interactions (db st) ++ [row])%list
    /\ user_input row = request
    /\ agent_output row = reply
    /\ context_tags row
       = primary_intent (interpret_request request) ++ ","
           ++ join "," (agents_needed (interpret_request request))
    /\ dispatched st' = (dispatched st ++ agents_needed (interpret_request request))%list.
Proof.
  intros Hrun Hknown.
  destruct (sqlite_fault env (accesses st)) as [e |] eqn:Hup.
  { unfold process_request in Hrun.
    rewrite bind_run, retrieve_relevant_run, Hup in Hrun; discriminate. }
  rewrite (process_request_run request st Hup Hknown) in Hrun; cbv zeta in Hrun.
  destruct (dispatch_loop_effect env (agents_needed (interpret_request request))
              (parameters (interpret_request request)) request [] [] (accessed st))
    as [Hdb Hlog].
  destruct (dispatch_loop env (agents_needed (interpret_request request))
              (parameters (interpret_request request)) request [] [] (accessed st))
    as [[collected | e] st1]; [ | discriminate ].
  cbn [snd fst] in Hdb, Hlog; specialize (Hlog collected eq_refl).
  destruct (sqlite_fault env (accesses st1)); [ discriminate | ].
  injection Hrun as <- <-.
  eexists; unfold saved; cbn [db interactions dispatched].
  rewrite Hdb, Hlog; cbn [accessed db dispatched].
  repeat split.
Qed.

(** A turn that raises has stored nothing. *)
Lemma process_request_raise_keeps_db (request : string) (st : State) (e : PyExc) :
  fst (process_request env session request st) = Raise e ->
  db (snd (process_request env session request st)) = db st.
Proof.
  destruct (sqlite_fault env (accesses st)) as [e0 |] eqn:Hup.
  { unfold process_request; rewrite bind_run, retrieve_relevant_run, Hup; reflexivity. }
  destruct (String.eqb (primary_intent (interpret_request request)) "unknown") eqn:E.
  - unfold process_request; rewrite bind_run, retrieve_relevant_run, Hup, E.
    rewrite bind_run, save_interaction_run.
    destruct (sqlite_fault env (accesses (accessed st))); [ reflexivity | discriminate ].
  - assert (Hknown : primary_intent (interpret_request request) <> "unknown")
      by (intros H; rewrite H in E; discriminate).
    rewrite (process_request_run request st Hup Hknown); cbv zeta.
    destruct (dispatch_loop_effect env (agents_needed (interpret_request request))
                (parameters (interpret_request request)) request [] [] (accessed st))
      as [Hdb _].
    destruct (dispatch_loop env (agents_needed (interpret_request request))
                (parameters (interpret_request request)) request [] [] (accessed st))
      as [[collected | e1] st1]; cbn [snd] in Hdb; [ | intros _; exact Hdb ].
    destruct (sqlite_fault env (accesses st1)); [ intros _; exact Hdb | discriminate ].
Qed.

(** C1 (amended): an [Exception] raised while an agent is invoked never
    escapes [_execute_agent_action]; the store accesses of the turn are
    not guarded: when the store is unreachable on read, retrieve_relevant
    raises the store's fault instead of returning an empty list, and
    process_request lets that fault escape, having stored nothing. *)
Theorem store_read_fault_escapes (request : string) (limit : Z) (st : State) (e : PyExc) :
  sqlite_fault env (accesses st) = Some e ->
  fst (retrieve_relevant env request limit st) = Raise e
  /\ fst (process_request env session request st) = Raise e
  /\ db (snd (process_request env session request st)) = db st
  /\ (forall agent_name parameters text,
        guarded (_execute_agent_action env agent_name parameters text)).
Proof.
  intros Hdown.
  assert (Hturn : fst (process_request env session request st) = Raise e).
  { unfold process_request; rewrite bind_run, retrieve_relevant_run, Hdown; reflexivity. }
  split; [ | split; [ | split ] ].
  - rewrite retrieve_relevant_run, Hdown; reflexivity.
  - exact Hturn.
  - exact (process_request_raise_keeps_db request st e Hturn).
  - intros agent_name parameters text; apply execute_agent_action_guarded.
Qed.

End Turn.

Lemma context_tags_follow_classification_witness :
  exists row,
    interactions (db (snd sample_turn)) = (interactions (db fresh) ++ [row])%list
    /\ user_input row = "find the report"
    /\ agent_output row = sample_reply
    /\ context_tags row
       = primary_intent (interpret_request "find the report") ++ ","
           ++ join "," (agents_needed (interpret_request "find the report"))
    /\ dispatched (snd sample_turn)
       = (dispatched fresh ++ agents_needed (interpret_request "find the report"))%list.
Proof.
  apply (context_tags_follow_classification sample_env "s1" "find the report"
           sample_reply fresh (snd sample_turn)).
  - reflexivity.
  - intros H; vm_compute in H; discriminate.
Defined.

Example sample_turn_row :
  interactions (db (snd sample_turn))
  = [mkInteraction 1 "T0" "find the report" sample_reply "s1" "file_management,file"].
Proof. reflexivity. Qed.

Lemma store_read_fault_escapes_witness :
  let e := mkExc "OperationalError" true "unable to open database file" in
  fst (retrieve_relevant offline_env "find my notes" 3 fresh) = Raise e
  /\ fst (process_request offline_env "s1" "find my notes" fresh) = Raise e
  /\ db (snd (process_request offline_env "s1" "find my notes" fresh)) = db fresh
  /\ (forall agent_name parameters text,
        guarded (_execute_agent_action offline_env agent_name parameters text)).
Proof.
  apply (store_read_fault_escapes offline_env "s1" "find my notes" 3 fresh).
  reflexivity.
Defined.

(** C1 (as stated) fails: with the store unreachable, retrieve_relevant
    raises instead of returning the empty list, and the fault escapes
    process_request. *)
Lemma unreachable_store_counterexample :
  fst (retrieve_relevant offline_env "find my notes" 3 fresh) <> Ok []
  /\ fst (process_request offline_env "s1" "find my notes" fresh)
     = Raise (mkExc "OperationalError" true "unable to open database file").
Proof. split; [ discriminate | reflexivity ]. Qed.

(** ** Requests with several handlers *)

Section SeveralHandlers.

Variable env : Env.
Variable session : string.

Lemma cascade_at_most_one (s : string) :
  List.length (agents_needed (primary_cascade s)) <= 1.
Proof.
  pose proof (cascade_first_triggered s) as H.
  destruct (first_triggered s); [ destruct H as [_ ->] | rewrite H ]; simpl; lia.
Qed.

(** The phrase "organize my" puts the request in the file-management
    category, with the action "find" or "organize". *)
Lemma organize_my_is_file_management (request : string) :
  contains "organize my" (lower request) = true ->
  primary_intent (interpret_request request) = "file_management"
  /\ (parameters (interpret_request request) = [("action", "find")]
      \/ parameters (interpret_request request) = [("action", "organize")]).
Proof.
  intros H; apply organize_my_has_organize in H.
  unfold interpret_request.
  destruct (override_keeps_intent (lower request) (primary_cascade (lower request)))
    as [-> [-> _]].
  unfold primary_cascade.
  rewrite (any_in_of_member "organize" _ (lower request)) by (simpl; tauto || exact H).
  destruct (contains "find" (lower request)); [ split; [ | left ]; reflexivity | ].
  rewrite H; split; [ | right ]; reflexivity.
Qed.

(** Only the override produces more than one handler. *)
Lemma several_handlers_shape (request : string) :
  1 < List.length (agents_needed (interpret_request request)) ->
  contains "organize my" (lower request) = true
  /\ (agents_needed (interpret_request request) = ["phone"; "memory"]
      \/ agents_needed (interpret_request request) = ["file"; "automation"; "memory"]).
Proof.
  unfold interpret_request, multi_agent_override.
  pose proof (cascade_at_most_one (lower request)) as Hone.
  destruct (contains "organize my" (lower request)); [ | lia ].
  destruct (contains "phone" (lower request)); [ intros _; split; [ | left ]; reflexivity | ].
  destruct (contains "computer" (lower request) || contains "files" (lower request));
    [ intros _; split; [ | right ]; reflexivity | lia ].
Qed.

Lemma phone_falls_through (request action : string) (st : State) :
  action = "find" \/ action = "organize" ->
  _execute_agent_action env "phone" [("action", action)] request st
  = (Ok None,
     mkState (db st) (accesses st) (clock_reads st) (dispatched st ++ ["phone"])%list).
Proof. intros [-> | ->]; reflexivity. Qed.

Lemma automation_falls_through (request action : string) (st : State) :
  action = "find" \/ action = "organize" ->
  _execute_agent_action env "automation" [("action", action)] request st
  = (Ok None,
     mkState (db st) (accesses st) (clock_reads st) (dispatched st ++ ["automation"])%list).
Proof. intros [-> | ->]; reflexivity. Qed.

(** With the action of the file category, both handler lists of the
    override stop the loop before its last agent. *)
Lemma override_dispatch_raises (agents : list string) (action request : string)
    (responses : list AgentResponse) (all_actions : list string) (st : State) :
  agents = ["phone"; "memory"] \/ agents = ["file"; "automation"; "memory"] ->
  action = "find" \/ action = "organize" ->
  exists e,
    fst (dispatch_loop env agents [("action", action)] request responses all_actions st)
    = Raise e.
Proof.
  intros [-> | ->] Haction; cbn [dispatch_loop]; rewrite bind_run.
  - rewrite (phone_falls_through request action st Haction).
    eexists; reflexivity.
  - destruct (_execute_agent_action env "file" [("action", action)] request st)
      as [[[response |] | e] st1]; try (eexists; reflexivity).
    cbn [dispatch_loop]; rewrite bind_run.
    rewrite (automation_falls_through request action st1 Haction).
    eexists; reflexivity.
Qed.

(** Every request classified with more than one handler ends its turn
    with a raised fault and nothing stored. *)
Lemma several_handlers_turn_raises (request : string) (st : State) :
  1 < List.length (agents_needed (interpret_request request)) ->
  exists e,
    fst (process_request env session request st) = Raise e
    /\ db (snd (process_request env session request st)) = db st.
Proof.
  intros Hmany.
  destruct (several_handlers_shape request Hmany) as [Hphrase Hagents].
  destruct (organize_my_is_file_management request Hphrase) as [Hintent Hparams].
  assert (Hraise : exists e, fst (process_request env session request st) = Raise e).
  { destruct (sqlite_fault env (accesses st)) as [e0 |] eqn:Hup.
    - exists e0; unfold process_request.
      rewrite bind_run, retrieve_relevant_run, Hup; reflexivity.
    - rewrite process_request_run;
        [ | exact Hup | rewrite Hintent; discriminate ].
      cbv zeta.
      assert (Hloop : exists e,
                fst (dispatch_loop env (agents_needed (interpret_request request))
                       (parameters (interpret_request request)) request [] [] (accessed st))
                = Raise e).
      { destruct Hparams as [-> | ->];
          apply override_dispatch_raises; auto. }
      destruct Hloop as [e He]; exists e.
      destruct (dispatch_loop env (agents_needed (interpret_request request))
                  (parameters (interpret_request request)) request [] [] (accessed st))
        as [[collected | e1] st1]; [ discriminate | ].
      cbn [fst] in He |- *; injection He as ->; reflexivity. }
  destruct Hraise as [e He]; exists e; split; [ exact He | ].
  exact (process_request_raise_keeps_db env session request st e He).
Qed.

(** C10 (the code at "organize my phone"): the request is classified as
    file_management and the override sets agents_needed to
    ["phone"; "memory"], but the turn never reaches save_interaction: it
    raises the store's fault when the store is unreachable, and otherwise
    the AttributeError met on the None that _execute_agent_action returns
    for "phone"; no context_tags are persisted. *)
Theorem organize_my_phone_not_persisted (st : State) :
  primary_intent (interpret_request "organize my phone") = "file_management"
  /\ agents_needed (interpret_request "organize my phone") = ["phone"; "memory"]
  /\ process_request env session "organize my phone" st
     = match sqlite_fault env (accesses st) with
       | Some e => (Raise e, accessed st)
       | None => (Raise (AttributeError_NoneType "actions_taken"), stopped_after ["phone"] st)
       end.
Proof.
  split; [ reflexivity | split; [ reflexivity | ] ].
  destruct (sqlite_fault env (accesses st)) as [e |] eqn:Hup.
  - unfold process_request; rewrite bind_run, retrieve_relevant_run, Hup; reflexivity.
  - rewrite process_request_run; [ | exact Hup | intros H; vm_compute in H; discriminate ].
    reflexivity.
Qed.

End SeveralHandlers.

(** C6 (the code at "organize my files" when file_agent.organize_folder
    raises): the fault of the file handler is turned into a failed
    outcome and the automation handler is dispatched next, but the turn
    then raises AttributeError: the memory handler is never dispatched
    and no reply is persisted. *)
Theorem organize_my_files_turn_aborts :
  agents_needed (interpret_request "organize my files") = ["file"; "automation"; "memory"]
  /\ file_agent_organize_folder sample_env "." "type"
     = Raise (mkExc "PermissionError" true "access denied")
  /\ fst (_execute_agent_action sample_env "file" [("action", "organize")]
            "organize my files" (accessed fresh))
     = Ok (Some (mkAgentResponse false "Error in file: access denied" None None))
  /\ process_request sample_env "s1" "organize my files" fresh
     = (Raise (AttributeError_NoneType "actions_taken"),
        stopped_after ["file"; "automation"] fresh).
Proof. repeat split; reflexivity. Qed.

(** With a single handler the same fault is reported and the reply is
    persisted. *)
Example single_handler_fault_persisted :
  map context_tags
    (interactions (db (snd (process_request sample_env "s1" "organize the folder" fresh))))
  = ["file_management,file"]
  /\ contains "Error in file: access denied"
       (match fst (process_request sample_env "s1" "organize the folder" fresh) with
        | Ok reply => reply
        | Raise _ => ""
        end) = true.
Proof. split; reflexivity. Qed.


(** * Further properties *)

(** ** MemoryAgent: what a retrieval returns *)

Section RetrievalBounds.

Variable env : Env.

Lemma sql_limit_incl {A : Type} (n : Z) (l : list A) (x : A) :
  In x (sql_limit n l) -> In x l.
Proof.
  unfold sql_limit; destruct (n <? 0)%Z; [ tauto | ].
  intros H; rewrite <- (firstn_skipn (Z.to_nat n) l); apply in_or_app; left; exact H.
Qed.

Lemma sql_limit_length {A : Type} (n : Z) (l : list A) :
  (0 <= n)%Z -> List.length (sql_limit n l) <= Z.to_nat n.
Proof.
  intros Hn; unfold sql_limit.
  destruct (n <? 0)%Z eqn:E; [ apply Z.ltb_lt in E; lia | ].
  rewrite length_firstn; lia.
Qed.

Lemma sql_limit_all {A : Type} (n : Z) (l : list A) :
  (n < 0)%Z \/ (Z.of_nat (List.length l) <= n)%Z -> sql_limit n l = l.
Proof.
  intros H; unfold sql_limit.
  destruct (n <? 0)%Z eqn:E; [ reflexivity | ].
  apply Z.ltb_ge in E; apply firstn_all2; lia.
Qed.

Lemma firstn_strongly_sorted {A : Type} (R : A -> A -> Prop) (n : nat) (l : list A) :
  StronglySorted R l -> StronglySorted R (firstn n l).
Proof.
  intros H; revert n; induction H as [| x l Hl IH Hx]; intros [| n]; simpl;
    try constructor; auto.
  rewrite Forall_forall in *; intros y Hy; apply Hx.
  rewrite <- (firstn_skipn n l); apply in_or_app; left; exact Hy.
Qed.

Lemma sql_limit_sorted {A : Type} (R : A -> A -> Prop) (n : Z) (l : list A) :
  StronglySorted R l -> StronglySorted R (sql_limit n l).
Proof.
  intros H; unfold sql_limit; destruct (n <? 0)%Z;
    [ exact H | apply firstn_strongly_sorted; exact H ].
Qed.

(** What [retrieve_relevant] returns, in terms of [where_clause]. *)
Lemma retrieve_relevant_selects (query : string) (limit : Z) (st : State) :
  reachable env (accesses st) ->
  retrieve_relevant env query limit st
  = (Ok (map as_dict
           (select_interactions (where_clause query) limit (interactions (db st)))),
     accessed st).
Proof.
  intros Hup; rewrite retrieve_relevant_run; unfold reachable in Hup; rewrite Hup.
  reflexivity.
Qed.

(** X1: a retrieval that the store answers changes nothing in the
    database and returns the dictionaries of stored rows only, each
    satisfying the condition of every term of the query, no row older
    than a row that follows it, and at most [limit] of them when [limit]
    is not negative. *)
Theorem retrieve_relevant_sound (query : string) (limit : Z) (st : State) :
  reachable env (accesses st) ->
  exists rows,
    fst (retrieve_relevant env query limit st) = Ok (map as_dict rows)
    /\ db (snd (retrieve_relevant env query limit st)) = db st
    /\ (forall row, In row rows ->
          In row (interactions (db st)) /\ where_clause query row = true)
    /\ StronglySorted row_not_older rows
    /\ ((0 <= limit)%Z -> List.length rows <= Z.to_nat limit).
Proof.
  intros Hup; rewrite (retrieve_relevant_selects query limit st Hup); cbn [fst snd].
  exists (select_interactions (where_clause query) limit (interactions (db st))).
  unfold select_interactions; repeat split.
  - apply sql_limit_incl in H.
    apply (Permutation_in _ (order_by_timestamp_desc_perm _)) in H.
    apply filter_In in H; tauto.
  - apply sql_limit_incl in H.
    apply (Permutation_in _ (order_by_timestamp_desc_perm _)) in H.
    apply filter_In in H; tauto.
  - apply sql_limit_sorted, order_by_timestamp_desc_sorted.
  - apply sql_limit_length.
Qed.

(** X2: with a negative [limit], or a [limit] that is at least the number
    of rows satisfying the conditions of the query, nothing is cut: the
    result is a rearrangement of all these rows. *)
Theorem retrieve_relevant_uncut (query : string) (limit : Z) (st : State) :
  reachable env (accesses st) ->
  (limit < 0)%Z
  \/ (Z.of_nat (List.length (List.filter (where_clause query) (interactions (db st))))
      <= limit)%Z ->
  exists rows,
    fst (retrieve_relevant env query limit st) = Ok (map as_dict rows)
    /\ Permutation rows (List.filter (where_clause query) (interactions (db st))).
Proof.
  intros Hup Hlimit; rewrite (retrieve_relevant_selects query limit st Hup); cbn [fst].
  eexists; split; [ reflexivity | ].
  unfold select_interactions.
  rewrite sql_limit_all; [ apply order_by_timestamp_desc_perm | ].
  rewrite (Permutation_length (order_by_timestamp_desc_perm _)); exact Hlimit.
Qed.

Lemma isspace_not_upper (c : ascii) : isspace c = true -> lower_char c = c.
Proof.
  destruct c as [[] [] [] [] [] [] [] []]; intros H; try reflexivity; discriminate H.
Qed.

Lemma split_blank_nil (s : string) : blank s = true -> split (lower s) = [].
Proof.
  induction s as [| c s IH]; [ reflexivity | ].
  cbn [blank]; intros H; apply andb_true_iff in H as [Hc Hs].
  cbn [lower split]; rewrite (isspace_not_upper c Hc), Hc; auto.
Qed.

(** X3: a query made of white space only is the empty query: no term, no
    filter, the most recent rows up to [limit]. *)
Theorem blank_query_is_empty_query (query : string) (limit : Z) (st : State) :
  blank query = true ->
  reachable env (accesses st) ->
  retrieve_relevant env query limit st = retrieve_relevant env "" limit st
  /\ fst (retrieve_relevant env query limit st)
     = Ok (map as_dict (sql_limit limit (order_by_timestamp_desc (interactions (db st))))).
Proof.
  intros Hblank Hup; rewrite !retrieve_relevant_run.
  rewrite (split_blank_nil query Hblank).
  split; [ reflexivity | ].
  unfold reachable in Hup; rewrite Hup.
  cbn [fst map forallb]; unfold select_interactions; rewrite filter_all; reflexivity.
Qed.

End RetrievalBounds.

Lemma retrieve_relevant_sound_witness :
  exists rows,
    fst (retrieve_relevant sample_env "a_p%" 2 six_rows_state) = Ok (map as_dict rows)
    /\ db (snd (retrieve_relevant sample_env "a_p%" 2 six_rows_state)) = db six_rows_state
    /\ (forall row, In row rows ->
          In row (interactions (db six_rows_state)) /\ where_clause "a_p%" row = true)
    /\ StronglySorted row_not_older rows
    /\ ((0 <= 2)%Z -> List.length rows <= Z.to_nat 2).
Proof. apply (retrieve_relevant_sound sample_env "a_p%" 2 six_rows_state); reflexivity. Defined.

Lemma retrieve_relevant_uncut_witness :
  exists rows,
    fst (retrieve_relevant sample_env "e" (-1) six_rows_state) = Ok (map as_dict rows)
    /\ Permutation rows (List.filter (where_clause "e") (interactions (db six_rows_state))).
Proof.
  apply (retrieve_relevant_uncut sample_env "e" (-1) six_rows_state);
    [ reflexivity | left; reflexivity ].
Defined.

Lemma blank_query_is_empty_query_witness :
  let query := String " " (String "009" (String " " EmptyString)) in
  retrieve_relevant sample_env query 5 six_rows_state
  = retrieve_relevant sample_env "" 5 six_rows_state
  /\ fst (retrieve_relevant sample_env query 5 six_rows_state)
     = Ok (map as_dict
             (sql_limit 5 (order_by_timestamp_desc (interactions (db six_rows_state))))).
Proof.
  apply (blank_query_is_empty_query sample_env
           (String " " (String "009" (String " " EmptyString))) 5 six_rows_state);
    reflexivity.
Defined.

Example uncut_on_six_rows :
  fst (retrieve_relevant sample_env "e" (-1) six_rows_state)
  = Ok (map as_dict (order_by_timestamp_desc six_rows))
  /\ fst (retrieve_relevant sample_env "e" 0 six_rows_state) = Ok [].
Proof. split; reflexivity. Qed.

(** ** MemoryAgent: writes *)

Section Writes.

Variable env : Env.

Lemma insert_desc_in (r x : Interaction) (l : list Interaction) :
  In x (insert_desc r l) <-> x = r \/ In x l.
Proof.
  split; intros H.
  - apply (Permutation_in _ (insert_desc_perm r l)) in H; destruct H; auto.
  - apply (Permutation_in _ (Permutation_sym (insert_desc_perm r l))).
    destruct H; [ left | right ]; auto.
Qed.

(** X4: a saved interaction is found again: once save_interaction has
    returned, a retrieval with no bound whose conditions the new row
    satisfies lists that row, with the timestamp read at the time of the
    write. *)
Theorem saved_interaction_is_retrievable
    (request output session tags query : string) (limit : Z) (st : State) :
  reachable env (accesses st) ->
  reachable env (S (accesses st)) ->
  (limit < 0)%Z ->
  where_clause query
    (mkInteraction (S (sqlite_sequence (db st))) (now_isoformat env (clock_reads st))
       request output session tags) = true ->
  fst (save_interaction env request output session tags st) = Ok tt
  /\ exists rows,
       fst (retrieve_relevant env query limit
              (snd (save_interaction env request output session tags st))) = Ok rows
       /\ In (mkRecalled (now_isoformat env (clock_reads st)) request output tags) rows.
Proof.
  intros Hup Hup' Hlimit Hmatch.
  rewrite save_interaction_run; unfold reachable in Hup; rewrite Hup; cbn [fst snd].
  split; [ reflexivity | ].
  rewrite retrieve_relevant_selects by exact Hup'.
  eexists; split; [ reflexivity | ].
  set (row := mkInteraction (S (sqlite_sequence (db st))) (now_isoformat env (clock_reads st))
                request output session tags) in *.
  change (mkRecalled (now_isoformat env (clock_reads st)) request output tags)
    with (as_dict row).
  apply in_map; unfold select_interactions.
  rewrite sql_limit_all by (left; exact Hlimit).
  apply (Permutation_in _ (Permutation_sym (order_by_timestamp_desc_perm _))).
  apply filter_In; split; [ | exact Hmatch ].
  unfold saved; cbn [db interactions]; apply in_or_app; right; left; reflexivity.
Qed.

Lemma strongly_sorted_snoc (l : list nat) (n : nat) :
  StronglySorted lt l -> Forall (fun m => m < n) l -> StronglySorted lt (l ++ [n])%list.
Proof.
  induction 1 as [| x l Hl IH Hx]; intros Hn; simpl.
  - repeat constructor.
  - inversion Hn as [| ? ? Hxn Hln]; subst.
    constructor; [ apply IH; exact Hln | ].
    apply Forall_app; split; [ exact Hx | repeat constructor; exact Hxn ].
Qed.

(** X5: save_interaction appends exactly one row and touches nothing
    else; the row gets an identity above every identity in use, so row
    identities keep growing along the insertion order. *)
Theorem save_interaction_appends (request output session tags : string) (st : State) :
  reachable env (accesses st) ->
  rowids_increasing (db st) ->
  let d' := db (snd (save_interaction env request output session tags st)) in
  exists row,
    interactions d' = (interactions (db st) ++ [row])%list
    /\ user_input row = request /\ agent_output row = output
    /\ session_id row = session /\ context_tags row = tags
    /\ (forall old, In old (interactions (db st)) -> rowid old < rowid row)
    /\ user_preferences d' = user_preferences (db st)
    /\ rowids_increasing d'.
Proof.
  intros Hup [Hsorted Hbound]; cbv zeta.
  rewrite save_interaction_run; unfold reachable in Hup; rewrite Hup.
  unfold saved; cbn [snd db interactions user_preferences].
  eexists; split; [ reflexivity | ].
  cbn [user_input agent_output session_id context_tags rowid].
  repeat split.
  - intros old Hold; rewrite Forall_forall in Hbound.
    specialize (Hbound old Hold); lia.
  - cbn [interactions]; rewrite map_app; cbn [map rowid].
    apply strongly_sorted_snoc; [ exact Hsorted | ].
    apply Forall_map; eapply Forall_impl; [ | exact Hbound ].
    cbn beta; intros row Hrow; lia.
  - cbn [interactions sqlite_sequence]; apply Forall_app; split.
    + eapply Forall_impl; [ | exact Hbound ]; cbn beta; intros row Hrow; lia.
    + repeat constructor.
Qed.

(** X6: when the store does not answer, each of save_interaction,
    set_preference and get_preference raises the store's fault, and the
    database is left as it was. *)
Theorem store_fault_on_write (a b c d : string) (st : State) (e : PyExc) :
  sqlite_fault env (accesses st) = Some e ->
  save_interaction env a b c d st = (Raise e, accessed st)
  /\ set_preference env a b st = (Raise e, accessed st)
  /\ get_preference env a st = (Raise e, accessed st)
  /\ db (accessed st) = db st.
Proof.
  intros Hdown; repeat split.
  - rewrite save_interaction_run, Hdown; reflexivity.
  - unfold set_preference, bind, sqlite3_connect; rewrite Hdown; reflexivity.
  - unfold get_preference, bind, sqlite3_connect; rewrite Hdown; reflexivity.
Qed.

Lemma find_has_key_none (k : string) (l : list Preference) :
  (forall p, In p l -> key p <> k) -> List.find (has_key k) l = None.
Proof.
  induction l as [| p l IH]; intros H; [ reflexivity | ].
  cbn [List.find]; unfold has_key at 1.
  destruct (String.eqb (key p) k) eqn:E.
  - apply String.eqb_eq in E; exfalso; apply (H p); [ left; reflexivity | exact E ].
  - apply IH; intros q Hq; apply H; right; exact Hq.
Qed.

(** X7: get_preference on a key under which nothing is stored returns
    None. *)
Theorem get_preference_missing (k : string) (st : State) :
  reachable env (accesses st) ->
  (forall p, In p (user_preferences (db st)) -> key p <> k) ->
  get_preference env k st = (Ok None, accessed st).
Proof.
  intros Hup Hmissing; rewrite (get_preference_run env k st Hup).
  rewrite (find_has_key_none k _ Hmissing); reflexivity.
Qed.

Lemma find_other_key (k k' : string) (p : Preference) (l : list Preference) :
  k' <> k -> key p = k ->
  List.find (has_key k') (List.filter (fun q => negb (has_key k q)) l ++ [p])
  = List.find (has_key k') l.
Proof.
  intros Hne Hp; induction l as [| q l IH]; cbn [List.filter List.find app].
  - unfold has_key; rewrite Hp.
    destruct (String.eqb k k') eqn:E; [ | reflexivity ].
    apply String.eqb_eq in E; congruence.
  - destruct (has_key k q) eqn:Hq; cbn [negb].
    + unfold has_key in Hq; apply String.eqb_eq in Hq.
      replace (has_key k' q) with false; [ exact IH | ].
      unfold has_key; rewrite Hq; symmetry; apply String.eqb_neq; congruence.
    + cbn [app List.find]; destruct (has_key k' q); [ reflexivity | exact IH ].
Qed.

(** X8: set_preference on one key leaves what get_preference returns for
    every other key as it was. *)
Theorem set_preference_other_key (k k' v : string) (st : State) :
  reachable env (accesses st) ->
  reachable env (S (accesses st)) ->
  k' <> k ->
  fst (get_preference env k' (snd (set_preference env k v st)))
  = fst (get_preference env k' st).
Proof.
  intros Hup Hup' Hne.
  rewrite (set_preference_run env k v st Hup); cbn [snd].
  rewrite get_preference_run by exact Hup'.
  rewrite (get_preference_run env k' st Hup); cbn [fst db user_preferences].
  rewrite find_other_key by (assumption || reflexivity); reflexivity.
Qed.

Lemma filter_keys_nodup (P : Preference -> bool) (l : list Preference) :
  NoDup (map key l) -> NoDup (map key (List.filter P l)).
Proof.
  induction l as [| p l IH]; cbn [map List.filter]; intros H; [ constructor | ].
  inversion H as [| ? ? Hnotin Hrest]; subst.
  destruct (P p); [ | auto ].
  cbn [map]; constructor; [ | auto ].
  intros Hin; apply Hnotin.
  apply in_map_iff in Hin as [q [Hq Hin]]; apply filter_In in Hin as [Hin _].
  apply in_map_iff; exists q; auto.
Qed.

(** X9: set_preference keeps [key] a primary key: from a table with no
    two rows under one key it leaves such a table, whether the store
    answers or not. *)
Theorem set_preference_keeps_keys_unique (k v : string) (st : State) :
  keys_unique (db st) -> keys_unique (db (snd (set_preference env k v st))).
Proof.
  intros Huniq; unfold keys_unique in *.
  destruct (sqlite_fault env (accesses st)) as [e |] eqn:Hup.
  - unfold set_preference, bind, sqlite3_connect; rewrite Hup; exact Huniq.
  - rewrite (set_preference_run env k v st Hup); cbn [snd db user_preferences].
    rewrite map_app; cbn [map key].
    apply NoDup_app;
      [ apply filter_keys_nodup; exact Huniq | repeat constructor; intros [] | ].
    intros x Hx [<- | []].
    apply in_map_iff in Hx as [q [Hq Hin]]; apply filter_In in Hin as [_ Hin].
    unfold has_key in Hin; rewrite Hq, String.eqb_refl in Hin; discriminate.
Qed.

End Writes.

Lemma saved_interaction_is_retrievable_witness :
  fst (save_interaction sample_env "Quarterly REPORT" "filed" "s1" "file_management,file" fresh)
  = Ok tt
  /\ exists rows,
       fst (retrieve_relevant sample_env "report" (-1)
              (snd (save_interaction sample_env "Quarterly REPORT" "filed" "s1"
                      "file_management,file" fresh))) = Ok rows
       /\ In (mkRecalled (now_isoformat sample_env (clock_reads fresh))
                "Quarterly REPORT" "filed" "file_management,file") rows.
Proof.
  apply (saved_interaction_is_retrievable sample_env "Quarterly REPORT" "filed" "s1"
           "file_management,file" "report" (-1) fresh); reflexivity.
Defined.

Lemma save_interaction_appends_witness :
  let d' := db (snd (save_interaction sample_env "hello" "hi" "s1" "unknown_intent"
                       six_rows_state)) in
  exists row,
    interactions d' = (interactions (db six_rows_state) ++ [row])%list
    /\ user_input row = "hello" /\ agent_output row = "hi"
    /\ session_id row = "s1" /\ context_tags row = "unknown_intent"
    /\ (forall old, In old (interactions (db six_rows_state)) -> rowid old < rowid row)
    /\ user_preferences d' = user_preferences (db six_rows_state)
    /\ rowids_increasing d'.
Proof.
  apply (save_interaction_appends sample_env "hello" "hi" "s1" "unknown_intent" six_rows_state).
  - reflexivity.
  - split; cbn; repeat constructor; lia.
Defined.

Lemma store_fault_on_write_witness :
  let e := mkExc "OperationalError" true "unable to open database file" in
  save_interaction offline_env "a" "b" "c" "d" fresh = (Raise e, accessed fresh)
  /\ set_preference offline_env "a" "b" fresh = (Raise e, accessed fresh)
  /\ get_preference offline_env "a" fresh = (Raise e, accessed fresh)
  /\ db (accessed fresh) = db fresh.
Proof. apply (store_fault_on_write offline_env "a" "b" "c" "d" fresh); reflexivity. Defined.

Lemma get_preference_missing_witness :
  get_preference sample_env "theme" (snd (set_preference sample_env "lang" "en" fresh))
  = (Ok None, accessed (snd (set_preference sample_env "lang" "en" fresh))).
Proof.
  apply (get_preference_missing sample_env "theme");
    [ reflexivity | intros p [<- | []]; discriminate ].
Defined.

Lemma set_preference_other_key_witness :
  fst (get_preference sample_env "lang"
         (snd (set_preference sample_env "theme" "dark"
                 (snd (set_preference sample_env "lang" "en" fresh)))))
  = fst (get_preference sample_env "lang" (snd (set_preference sample_env "lang" "en" fresh))).
Proof.
  apply (set_preference_other_key sample_env "theme" "lang" "dark");
    [ reflexivity | reflexivity | discriminate ].
Defined.

Lemma set_preference_keeps_keys_unique_witness :
  keys_unique (db (snd (set_preference sample_env "lang" "fr"
                          (snd (set_preference sample_env "lang" "en" fresh))))).
Proof.
  apply (set_preference_keeps_keys_unique sample_env "lang" "fr").
  cbn; repeat constructor; intros [].
Defined.

(** ** The classifier: how the fields of an interpretation go together *)

Section Interpretation.

Ltac case_ifs :=
  repeat match goal with
    | |- context [if ?b then _ else _] => destruct b eqn:?
    end.

Lemma intent_label_known (c : Category) : intent_label c <> "unknown".
Proof. destruct c; discriminate. Qed.

Lemma intent_label_file (c : Category) :
  intent_label c = "file_management" -> handler_name c = "file".
Proof. destruct c; (reflexivity || discriminate). Qed.

(** X10: agents_needed never lists a handler twice, and it is empty
    exactly when primary_intent is "unknown". *)
Theorem agents_needed_distinct (request : string) :
  NoDup (agents_needed (interpret_request request))
  /\ (agents_needed (interpret_request request) = []
      <-> primary_intent (interpret_request request) = "unknown").
Proof.
  pose proof (cascade_first_triggered (lower request)) as Hcas.
  destruct (override_keeps_intent (lower request) (primary_cascade (lower request)))
    as [Hintent _].
  unfold interpret_request in *; rewrite Hintent; clear Hintent.
  assert (Hone : NoDup (agents_needed (primary_cascade (lower request)))
                 /\ (agents_needed (primary_cascade (lower request)) = []
                     <-> primary_intent (primary_cascade (lower request)) = "unknown")).
  { destruct (first_triggered (lower request)) as [c |].
    - destruct Hcas as [-> ->]; split; [ repeat constructor; intros [] | ].
      split; [ discriminate | intros H; destruct (intent_label_known c H) ].
    - rewrite Hcas; split; [ constructor | split; reflexivity ]. }
  unfold multi_agent_override.
  destruct (contains "organize my" (lower request)) eqn:Hphrase; [ | exact Hone ].
  assert (Hknown : primary_intent (primary_cascade (lower request)) <> "unknown").
  { destruct (organize_my_is_file_management request Hphrase) as [H _].
    unfold interpret_request in H.
    destruct (override_keeps_intent (lower request) (primary_cascade (lower request)))
      as [Hi _]; rewrite Hi in H; rewrite H; discriminate. }
  case_ifs; try exact Hone; cbn [agents_needed set_agents_needed].
  - split; [ | split; [ discriminate | intros H; destruct (Hknown H) ] ].
    repeat constructor; cbn; intros H; repeat destruct H as [H | H]; discriminate || exact H.
  - split; [ | split; [ discriminate | intros H; destruct (Hknown H) ] ].
    repeat constructor; cbn; intros H; repeat destruct H as [H | H]; discriminate || exact H.
Qed.

(** X11: parameters holds at most the key "action", and its value is one
    of the actions of the category named by primary_intent (also when
    the override has replaced the handlers); confidence is 0.0 for
    "unknown", 0.7 for "memory_recall" and 0.8 for every other intent. *)
Theorem parameters_follow_intent (request : string) :
  (parameters (interpret_request request) = []
   \/ exists action,
        parameters (interpret_request request) = [("action", action)]
        /\ In action (actions_of_intent (primary_intent (interpret_request request))))
  /\ confidence (interpret_request request)
     = confidence_of_intent (primary_intent (interpret_request request)).
Proof.
  unfold interpret_request.
  destruct (override_keeps_intent (lower request) (primary_cascade (lower request)))
    as [-> [-> ->]].
  unfold primary_cascade; case_ifs; (split; [ | reflexivity ]);
    first [ left; reflexivity
          | right; eexists; split; [ reflexivity | cbn; tauto ] ].
Qed.

End Interpretation.

Example override_keeps_file_action :
  parameters (interpret_request "Organize my PHONE") = [("action", "organize")]
  /\ agents_needed (interpret_request "Organize my PHONE") = ["phone"; "memory"]
  /\ action_fits "phone" (parameters (interpret_request "Organize my PHONE")) = false.
Proof. repeat split; reflexivity. Qed.

(** ** _execute_agent_action: one handler at a time *)

Section OneHandler.

Variable env : Env.

(** A returned call inside the [try] block: its response, or the failed
    response of the [except] clause. *)
Lemma try_returning (r : Result AgentResponse) (agent_name : string) (st : State) :
  try_except (returning r) (fun e => ret (Some (error_response agent_name e))) st
  = match r with
    | Ok response => (Ok (Some response), st)
    | Raise e =>
        if exc_is_Exception e then (Ok (Some (error_response agent_name e)), st)
        else (Raise e, st)
    end.
Proof.
  unfold try_except, returning, bind, call, ret.
  destruct r as [response | e]; [ reflexivity | ].
  destruct (exc_is_Exception e); reflexivity.
Qed.

Lemma try_returning_some (r : Result AgentResponse) (agent_name : string) (st : State) :
  raises_only_exceptions r ->
  exists response,
    try_except (returning r) (fun e => ret (Some (error_response agent_name e))) st
    = (Ok (Some response), st).
Proof.
  intros Hr; rewrite try_returning.
  destruct r as [response | e]; [ eexists; reflexivity | ].
  cbn in Hr; rewrite Hr; eexists; reflexivity.
Qed.

(** X12: an agent name that is none of the six known names gets a failed
    response "Unknown agent: <name>"; nothing is raised and nothing but
    the dispatch log changes. *)
Theorem unknown_agent_response (agent_name : string) (parameters : list (string * string))
    (text : string) (st : State) :
  ~ In agent_name ["research"; "file"; "automation"; "phone"; "domain"; "memory"] ->
  _execute_agent_action env agent_name parameters text st
  = (Ok (Some (mkAgentResponse false ("Unknown agent: " ++ agent_name) None None)),
     dispatched_to agent_name st).
Proof.
  intros Hnot.
  assert (Hne : forall name,
            In name ["research"; "file"; "automation"; "phone"; "domain"; "memory"] ->
            String.eqb agent_name name = false).
  { intros name Hin; apply String.eqb_neq; intros ->; exact (Hnot Hin). }
  unfold _execute_agent_action; rewrite bind_run; cbn [note_dispatch].
  unfold try_except.
  rewrite !Hne by (cbn; tauto).
  reflexivity.
Qed.

(** X13: a fault raised by the research agent becomes the failed response
    "Error in research: <text of the fault>" when it derives from
    Exception, and escapes otherwise; the agent is called on the request
    with "search for" and "research" removed and the ends stripped. *)
Theorem research_fault_becomes_outcome (parameters : list (string * string))
    (text : string) (st : State) (e : PyExc) :
  research_get_information env
    (strip (replace "research" "" (replace "search for" "" text))) = Raise e ->
  _execute_agent_action env "research" parameters text st
  = (if exc_is_Exception e
     then Ok (Some (mkAgentResponse false ("Error in research: " ++ exc_str e) None None))
     else Raise e,
     dispatched_to "research" st).
Proof.
  intros Hraise.
  unfold _execute_agent_action; rewrite bind_run; cbn [note_dispatch].
  cbn [String.eqb Ascii.eqb Bool.eqb].
  fold (error_response "research").
  change (fun e0 : PyExc =>
            ret (Some (mkAgentResponse false ("Error in " ++ "research" ++ ": " ++ exc_str e0)
                         None None)))
    with (fun e0 : PyExc => ret (Some (error_response "research" e0))).
  rewrite try_returning, Hraise.
  destruct (exc_is_Exception e); reflexivity.
Qed.

(** X14: inside the memory handler a store fault is caught: with the
    store unreachable, the handler yields the failed response
    "Error in memory: <text of the fault>" instead of raising. *)
Theorem memory_handler_store_fault (parameters : list (string * string))
    (text : string) (st : State) (e : PyExc) :
  sqlite_fault env (accesses st) = Some e ->
  exc_is_Exception e = true ->
  _execute_agent_action env "memory" parameters text st
  = (Ok (Some (mkAgentResponse false ("Error in memory: " ++ exc_str e) None None)),
     accessed (dispatched_to "memory" st)).
Proof.
  intros Hdown Hexc.
  unfold _execute_agent_action; rewrite bind_run; cbn [note_dispatch].
  cbn [String.eqb Ascii.eqb Bool.eqb].
  unfold try_except; rewrite bind_run, retrieve_relevant_run.
  cbn [accesses]; rewrite Hdown, Hexc; reflexivity.
Qed.

(** With a fitting action, and faults that derive from Exception, a
    handler always yields a response. *)
Lemma execute_returns_response (agent_name : string) (parameters : list (string * string))
    (text : string) (st : State) :
  faults_are_exceptions env ->
  action_fits agent_name parameters = true ->
  exists response st',
    _execute_agent_action env agent_name parameters text st = (Ok (Some response), st').
Proof.
  intros (Hstore & Hres & Hfind & Horg & Hdup & Hbak & Hdesk & Hsched & Htool & Hphoto
          & Hcont & Hcheck & Hfix) Hfits.
  unfold _execute_agent_action; rewrite bind_run; cbn [note_dispatch].
  unfold action_fits, action_in in Hfits; cbn [existsb] in Hfits.
  fold (error_response agent_name).
  change (fun e0 : PyExc =>
            ret (Some (mkAgentResponse false ("Error in " ++ agent_name ++ ": " ++ exc_str e0)
                         None None)))
    with (fun e0 : PyExc => ret (Some (error_response agent_name e0))).
  cbv zeta.
  repeat match goal with
    | |- context [if String.eqb ?a ?b then _ else _] =>
        destruct (String.eqb a b) eqn:?
    end;
    try discriminate Hfits;
    try (match goal with
         | |- context [try_except (returning ?r) _ ?s] =>
             destruct (try_returning_some r agent_name s) as [response Hr];
             [ auto | rewrite Hr; eauto ]
         end).
  - (* memory *)
    unfold try_except; rewrite bind_run, retrieve_relevant_run.
    match goal with
    | |- context [sqlite_fault env ?n] => destruct (sqlite_fault env n) as [e |] eqn:E
    end.
    + rewrite (Hstore _ _ E); eexists; eexists; reflexivity.
    + eexists; eexists; reflexivity.
  - (* any other name *)
    eexists; eexists; reflexivity.
Qed.

(** X15: when no "action" parameter is given, every agent name gets a
    response: the file, automation, phone and domain branches fall back
    on their default action, so the handler never ends without a
    response. *)
Theorem default_action_gets_response (agent_name text : string) (st : State) :
  faults_are_exceptions env ->
  exists response st',
    _execute_agent_action env agent_name [] text st = (Ok (Some response), st').
Proof.
  intros Hfaults; apply execute_returns_response; [ exact Hfaults | ].
  unfold action_fits; cbn [dict_get].
  repeat match goal with
    | |- context [if ?b then _ else _] => destruct b
    end; reflexivity.
Qed.

End OneHandler.

(** ** The turn: when it completes and what it stores *)

Section TurnOutcome.

Variable env : Env.
Variable session : string.

Ltac case_ifs :=
  repeat match goal with
    | |- context [if ?b then _ else _] => destruct b eqn:?
    end.

(** The cascade gives its handler an action that the handler knows. *)
Lemma cascade_action_fits (s agent_name : string) :
  In agent_name (agents_needed (primary_cascade s)) ->
  action_fits agent_name (parameters (primary_cascade s)) = true.
Proof.
  unfold primary_cascade; case_ifs; cbn [agents_needed parameters matched set_action app];
    first [ intros [<- | []]; reflexivity | intros [] ].
Qed.

Lemma dispatch_loop_completes (agents : list string) (parameters : list (string * string))
    (text : string) (responses : list AgentResponse) (all_actions : list string)
    (st : State) :
  faults_are_exceptions env ->
  (forall agent_name, In agent_name agents -> action_fits agent_name parameters = true) ->
  exists collected st',
    dispatch_loop env agents parameters text responses all_actions st = (Ok collected, st').
Proof.
  intros Hfaults; revert responses all_actions st.
  induction agents as [| agent_name rest IH]; intros responses all_actions st Hfit.
  - eexists; eexists; reflexivity.
  - cbn [dispatch_loop]; rewrite bind_run.
    destruct (execute_returns_response env agent_name parameters text st Hfaults)
      as [response [st1 Hrun]]; [ apply Hfit; left; reflexivity | ].
    rewrite Hrun; apply IH; intros a Ha; apply Hfit; right; exact Ha.
Qed.

Lemma process_request_unknown_run (request : string) (st : State) :
  sqlite_fault env (accesses st) = None ->
  primary_intent (interpret_request request) = "unknown" ->
  process_request env session request st
  = match sqlite_fault env (S (accesses st)) with
    | None =>
        (Ok unknown_reply,
         saved env request unknown_reply session "unknown_intent" (accessed st))
    | Some e => (Raise e, accessed (accessed st))
    end.
Proof.
  intros Hup Hunknown; unfold process_request.
  rewrite bind_run, retrieve_relevant_run, Hup, Hunknown.
  cbn [String.eqb Ascii.eqb Bool.eqb].
  rewrite bind_run, save_interaction_run; cbn [accessed accesses].
  destruct (sqlite_fault env (S (accesses st))); reflexivity.
Qed.

(** X16: a request that does not contain "organize my" always completes
    its turn when the store answers and the faults of the agents derive
    from Exception: a reply is returned and stored as one new
    interaction, whose context_tags follow the classification. *)
Theorem turn_completes_without_override (request : string) (st : State) :
  faults_are_exceptions env ->
  (forall n, reachable env n) ->
  contains "organize my" (lower request) = false ->
  exists reply st' row,
    process_request env session request st = (Ok reply, st')
    /\ interactions (db st') = (interactions (db st) ++ [row])%list
    /\ user_input row = request
    /\ agent_output row = reply
    /\ (context_tags row = "unknown_intent"
        \/ context_tags row
           = primary_intent (interpret_request request) ++ ","
               ++ join "," (agents_needed (interpret_request request))).
Proof.
  intros Hfaults Hup Hphrase.
  destruct (String.eqb (primary_intent (interpret_request request)) "unknown") eqn:E.
  - apply String.eqb_eq in E.
    rewrite (process_request_unknown_run request st (Hup _) E), (Hup (S (accesses st))).
    eexists; eexists; eexists; split; [ reflexivity | ].
    unfold saved; cbn; auto.
  - assert (Hknown : primary_intent (interpret_request request) <> "unknown")
      by (intros H; rewrite H in E; discriminate).
    rewrite (process_request_run env session request st (Hup _) Hknown); cbv zeta.
    assert (Hsame : interpret_request request = primary_cascade (lower request)).
    { unfold interpret_request, multi_agent_override; rewrite Hphrase; reflexivity. }
    destruct (dispatch_loop_completes (agents_needed (interpret_request request))
                (parameters (interpret_request request)) request [] [] (accessed st) Hfaults)
      as [collected [st1 Hloop]].
    { rewrite Hsame; intros a Ha; apply cascade_action_fits; exact Ha. }
    pose proof (dispatch_loop_effect env (agents_needed (interpret_request request))
                  (parameters (interpret_request request)) request [] [] (accessed st))
      as [Hdb _].
    rewrite Hloop in Hdb |- *; cbn [snd] in Hdb.
    rewrite (Hup (accesses st1)).
    eexists; eexists; eexists; split; [ reflexivity | ].
    unfold saved; cbn [db interactions user_input agent_output context_tags].
    rewrite Hdb; cbn [accessed db]; auto.
Qed.

(** X17: a request of unknown intent invokes no handler: once the first
    retrieval has answered, the turn returns the fixed clarification and
    stores it under the tag "unknown_intent"; and when the store fails at
    that write, the fault escapes, the reply is not returned and nothing
    is stored. *)
Theorem unknown_intent_turn (request : string) (st : State) :
  reachable env (accesses st) ->
  primary_intent (interpret_request request) = "unknown" ->
  process_request env session request st
  = match sqlite_fault env (S (accesses st)) with
    | None =>
        (Ok unknown_reply,
         saved env request unknown_reply session "unknown_intent" (accessed st))
    | Some e => (Raise e, accessed (accessed st))
    end
  /\ dispatched (snd (process_request env session request st)) = dispatched st.
Proof.
  intros Hup Hunknown.
  rewrite (process_request_unknown_run request st Hup Hunknown).
  split; [ reflexivity | ].
  destruct (sqlite_fault env (S (accesses st))); reflexivity.
Qed.

(** X18: a turn stores at most one interaction and never touches the
    preferences: when it returns a reply, exactly one row has been
    appended, holding the request, that reply and the session; when it
    raises, the interactions are as they were. *)
Theorem turn_stores_at_most_one_row (request : string) (st : State) :
  user_preferences (db (snd (process_request env session request st)))
  = user_preferences (db st)
  /\ match fst (process_request env session request st) with
     | Ok reply =>
         exists row,
           interactions (db (snd (process_request env session request st)))
           = (interactions (db st) ++ [row])%list
           /\ user_input row = request
           /\ agent_output row = reply
           /\ session_id row = session
     | Raise _ =>
         interactions (db (snd (process_request env session request st)))
         = interactions (db st)
     end.
Proof.
  destruct (sqlite_fault env (accesses st)) as [e0 |] eqn:Hup.
  { unfold process_request; rewrite bind_run, retrieve_relevant_run, Hup.
    split; reflexivity. }
  destruct (String.eqb (primary_intent (interpret_request request)) "unknown") eqn:E.
  - apply String.eqb_eq in E.
    rewrite (process_request_unknown_run request st Hup E).
    destruct (sqlite_fault env (S (accesses st))); cbn [fst snd];
      [ split; reflexivity | ].
    split; [ reflexivity | eexists; unfold saved; cbn; auto ].
  - assert (Hknown : primary_intent (interpret_request request) <> "unknown")
      by (intros H; rewrite H in E; discriminate).
    rewrite (process_request_run env session request st Hup Hknown); cbv zeta.
    pose proof (dispatch_loop_effect env (agents_needed (interpret_request request))
                  (parameters (interpret_request request)) request [] [] (accessed st))
      as [Hdb _].
    destruct (dispatch_loop env (agents_needed (interpret_request request))
                (parameters (interpret_request request)) request [] [] (accessed st))
      as [[collected | e1] st1]; cbn [snd] in Hdb; cbn [fst snd].
    + destruct (sqlite_fault env (accesses st1)); cbn [fst snd].
      * cbn [accessed db]; rewrite Hdb; split; reflexivity.
      * unfold saved; cbn [db user_preferences interactions].
        rewrite Hdb; cbn [accessed db].
        split; [ reflexivity | eexists; cbn; auto ].
    + rewrite Hdb; split; reflexivity.
Qed.

End TurnOutcome.

Lemma sample_env_faults_are_exceptions : faults_are_exceptions sample_env.
Proof. repeat split; try discriminate. Qed.

Lemma unknown_agent_response_witness :
  _execute_agent_action sample_env "calendar" [("action", "find")] "hello" fresh
  = (Ok (Some (mkAgentResponse false ("Unknown agent: " ++ "calendar") None None)),
     dispatched_to "calendar" fresh).
Proof.
  apply (unknown_agent_response sample_env "calendar").
  cbn; intros H; repeat destruct H as [H | H]; discriminate || exact H.
Defined.

Lemma research_fault_becomes_outcome_witness :
  let env := mkEnv (sqlite_fault sample_env) (now_isoformat sample_env)
               (fun _ => Raise (mkExc "TimeoutError" true "timed out"))
               (file_agent_find_file sample_env) (file_agent_organize_folder sample_env)
               (file_agent_remove_duplicates sample_env) (automation_run_backup sample_env)
               (automation_organize_desktop sample_env) (automation_schedule_task sample_env)
               (automation_create_tool sample_env) (phone_sort_photos sample_env)
               (phone_clean_contacts sample_env) (domain_check_domain_status sample_env)
               (domain_fix_dns sample_env) in
  _execute_agent_action env "research" [] "search for tides" fresh
  = (if exc_is_Exception (mkExc "TimeoutError" true "timed out")
     then Ok (Some (mkAgentResponse false
                      ("Error in research: " ++ exc_str (mkExc "TimeoutError" true "timed out"))
                      None None))
     else Raise (mkExc "TimeoutError" true "timed out"),
     dispatched_to "research" fresh).
Proof.
  cbv zeta.
  apply (research_fault_becomes_outcome _ [] "search for tides" fresh
           (mkExc "TimeoutError" true "timed out")).
  reflexivity.
Defined.

Lemma memory_handler_store_fault_witness :
  _execute_agent_action offline_env "memory" [] "recall the tides" fresh
  = (Ok (Some (mkAgentResponse false
                 ("Error in memory: "
                    ++ exc_str (mkExc "OperationalError" true "unable to open database file"))
                 None None)),
     accessed (dispatched_to "memory" fresh)).
Proof.
  apply (memory_handler_store_fault offline_env [] "recall the tides" fresh
           (mkExc "OperationalError" true "unable to open database file"));
    reflexivity.
Defined.

Lemma default_action_gets_response_witness :
  exists response st',
    _execute_agent_action sample_env "phone" [] "my phone" fresh = (Ok (Some response), st').
Proof.
  apply (default_action_gets_response sample_env "phone" "my phone" fresh).
  exact sample_env_faults_are_exceptions.
Defined.

Lemma turn_completes_without_override_witness :
  exists reply st' row,
    process_request sample_env "s1" "please organize the folder" six_rows_state
    = (Ok reply, st')
    /\ interactions (db st') = (interactions (db six_rows_state) ++ [row])%list
    /\ user_input row = "please organize the folder"
    /\ agent_output row = reply
    /\ (context_tags row = "unknown_intent"
        \/ context_tags row
           = primary_intent (interpret_request "please organize the folder") ++ ","
               ++ join "," (agents_needed (interpret_request "please organize the folder"))).
Proof.
  apply (turn_completes_without_override sample_env "s1" "please organize the folder"
           six_rows_state).
  - exact sample_env_faults_are_exceptions.
  - intros n; reflexivity.
  - reflexivity.
Defined.

Lemma unknown_intent_turn_witness :
  process_request sample_env "s1" "hello there" fresh
  = match sqlite_fault sample_env (S (accesses fresh)) with
    | None =>
        (Ok unknown_reply,
         saved sample_env "hello there" unknown_reply "s1" "unknown_intent" (accessed fresh))
    | Some e => (Raise e, accessed (accessed fresh))
    end
  /\ dispatched (snd (process_request sample_env "s1" "hello there" fresh)) = dispatched fresh.
Proof.
  apply (unknown_intent_turn sample_env "s1" "hello there" fresh); reflexivity.
Defined.

Example unknown_intent_write_fault :
  process_request write_fails_env "s1" "hello there" six_rows_state
  = (Raise (mkExc "OperationalError" true "database is locked"),
     accessed (accessed six_rows_state)).
Proof. reflexivity. Qed.

(** ** _compile_response: what a reply shows *)

Section Reply.

Lemma str_app_nil_r (s : string) : s ++ "" = s.
Proof. induction s as [| c s IH]; simpl; congruence. Qed.

Lemma str_app_assoc (a b c : string) : (a ++ b) ++ c = a ++ b ++ c.
Proof. induction a as [| x a IH]; simpl; congruence. Qed.

Lemma startswith_app_self (p x : string) : startswith p (p ++ x) = true.
Proof.
  induction p as [| c p IH]; [ reflexivity | ].
  simpl; rewrite Ascii.eqb_refl; exact IH.
Qed.

Lemma startswith_elim (p s : string) :
  startswith p s = true -> exists rest, s = p ++ rest.
Proof.
  revert s; induction p as [| c p IH]; intros s H; [ exists s; reflexivity | ].
  destruct s as [| d s]; simpl in H; [ discriminate | ].
  apply andb_true_iff in H as [Hc Hs].
  apply Ascii.eqb_eq in Hc; subst d.
  destruct (IH s Hs) as [rest ->]; exists rest; reflexivity.
Qed.

(** [m in s] says that [s] is some text, then [m], then some text. *)
Lemma contains_intro (a m b : string) : contains m (a ++ m ++ b) = true.
Proof.
  induction a as [| c a IH].
  - cbn [append]; destruct (m ++ b) eqn:E; cbn [contains];
      rewrite <- E, startswith_app_self; reflexivity.
  - cbn [append contains]; rewrite IH; apply orb_true_r.
Qed.

Lemma contains_elim (m s : string) :
  contains m s = true -> exists a b, s = a ++ m ++ b.
Proof.
  induction s as [| c s IH]; cbn [contains]; intros H.
  - rewrite orb_false_r in H; apply startswith_elim in H as [rest ->].
    exists "", rest; reflexivity.
  - apply orb_true_iff in H as [H | H].
    + apply startswith_elim in H as [rest ->]; exists "", rest; reflexivity.
    + destruct (IH H) as [a [b ->]]; exists (String c a), b; reflexivity.
Qed.

Lemma contains_trans (m p s : string) :
  contains m p = true -> contains p s = true -> contains m s = true.
Proof.
  intros Hmp Hps.
  apply contains_elim in Hmp as [a [b ->]].
  apply contains_elim in Hps as [a' [b' ->]].
  rewrite !str_app_assoc, <- (str_app_assoc a' a).
  apply contains_intro.
Qed.

Lemma contains_join_member (sep p : string) (parts : list string) :
  In p parts -> contains p (join sep parts) = true.
Proof.
  induction parts as [| q parts IH]; intros Hin; [ destruct Hin | ].
  destruct parts as [| q' parts].
  - destruct Hin as [<- | []]; cbn [join].
    rewrite <- (str_app_nil_r q) at 2; apply (contains_intro "" q "").
  - change (join sep (q :: q' :: parts)) with (q ++ sep ++ join sep (q' :: parts)).
    destruct Hin as [<- | Hin].
    + apply (contains_intro "" q).
    + specialize (IH Hin); apply contains_elim in IH as [a [b ->]].
      rewrite <- !str_app_assoc, (str_app_assoc _ p b); apply contains_intro.
Qed.

Lemma startswith_join_head (sep p : string) (parts : list string) :
  startswith p (join sep (p :: parts)) = true.
Proof.
  destruct parts as [| q parts]; cbn [join];
    [ rewrite <- (str_app_nil_r p) at 2 | ]; apply startswith_app_self.
Qed.

Lemma report_line_among_successes (base : list string) (responses : list AgentResponse)
    (response : AgentResponse) :
  In response responses ->
  success response = true ->
  In (report_line response)
    match List.filter success responses with
    | [] => base
    | _ :: _ =>
        (base ++ "Here's what I accomplished:"
           :: flat_map success_lines (List.filter success responses))%list
    end.
Proof.
  intros Hin Hs.
  assert (Hsucc : In response (List.filter success responses))
    by (apply filter_In; split; assumption).
  destruct (List.filter success responses) as [| s0 succ]; [ destruct Hsucc | ].
  apply in_or_app; right; right.
  apply in_flat_map; exists response; split; [ exact Hsucc | ].
  unfold success_lines, report_line; rewrite Hs; left; reflexivity.
Qed.

Lemma report_line_among_failures (earlier : list string) (responses : list AgentResponse)
    (response : AgentResponse) :
  In response responses ->
  (success response = true -> In (report_line response) earlier) ->
  In (report_line response)
    match List.filter (fun r => negb (success r)) responses with
    | [] => earlier
    | _ :: _ =>
        (earlier ++ (nl ++ "Some issues encountered:")%string
           :: map (fun r => "✗ " ++ message r)%string
                (List.filter (fun r => negb (success r)) responses))%list
    end.
Proof.
  intros Hin Hearlier.
  destruct (success response) eqn:Hs.
  - destruct (List.filter (fun r => negb (success r)) responses);
      [ | apply in_or_app; left ]; apply Hearlier; reflexivity.
  - assert (Hfail : In response (List.filter (fun r => negb (success r)) responses))
      by (apply filter_In; split; [ assumption | rewrite Hs; reflexivity ]).
    destruct (List.filter (fun r => negb (success r)) responses) as [| f0 failed];
      [ destruct Hfail | ].
    apply in_or_app; right; right.
    apply in_map_iff; exists response; split; [ | exact Hfail ].
    unfold report_line; rewrite Hs; reflexivity.
Qed.

Lemma report_line_in_reply (request : string) (i : Interpretation)
    (responses : list AgentResponse) (summary : string) (response : AgentResponse) :
  In response responses ->
  contains (report_line response) (_compile_response request i responses summary) = true.
Proof.
  intros Hin; unfold _compile_response; cbv zeta.
  apply contains_join_member.
  pose proof (report_line_among_failures _ responses response Hin
                (report_line_among_successes
                   (if truthy summary then [summary] else []) responses response Hin))
    as Hparts.
  destruct (String.eqb (primary_intent i) "file_management");
    [ apply in_or_app; left; exact Hparts | ].
  destruct (String.eqb (primary_intent i) "domain_management");
    [ apply in_or_app; left; exact Hparts | ].
  destruct (String.eqb (primary_intent i) "phone_management");
    [ apply in_or_app; left; exact Hparts | exact Hparts ].
Qed.

(** X19: no outcome is dropped from a reply: for every response handed
    to _compile_response, the reply contains its message, on a line
    marked as a success or as a failure according to its success flag. *)
Theorem every_response_is_reported (request : string) (i : Interpretation)
    (responses : list AgentResponse) (summary : string) (response : AgentResponse) :
  In response responses ->
  contains (report_line response) (_compile_response request i responses summary) = true
  /\ contains (message response) (_compile_response request i responses summary) = true.
Proof.
  intros Hin.
  pose proof (report_line_in_reply request i responses summary response Hin) as Hline.
  split; [ exact Hline | ].
  apply (contains_trans _ (report_line response)); [ | exact Hline ].
  unfold report_line.
  rewrite <- (str_app_nil_r (message response)) at 2.
  apply contains_intro.
Qed.

Lemma compile_response_starts_with_summary (request : string) (i : Interpretation)
    (responses : list AgentResponse) (summary : string) :
  truthy summary = true ->
  startswith summary (_compile_response request i responses summary) = true.
Proof.
  intros Htruthy; unfold _compile_response; cbv zeta; rewrite Htruthy.
  destruct (List.filter success responses);
    destruct (List.filter (fun r => negb (success r)) responses);
    repeat match goal with
      | |- context [if ?b then _ else _] => destruct b
      end;
    cbn [app]; apply startswith_join_head.
Qed.

End Reply.

Section ContextNote.

Variable env : Env.
Variable session : string.

(** X20: when the retrieval that opens a turn finds earlier interactions
    and the turn completes for a known intent, the reply starts with the
    note "Found n relevant past interactions. ", where n, at most 3, is
    the number of rows found before the turn stores its own. *)
Theorem context_note_leads_reply (request reply : string) (st st' : State)
    (past : list Recalled) :
  process_request env session request st = (Ok reply, st') ->
  primary_intent (interpret_request request) <> "unknown" ->
  fst (retrieve_relevant env request 3 st) = Ok past ->
  past <> [] ->
  startswith (context_note (List.length past)) reply = true
  /\ List.length past <= 3.
Proof.
  intros Hrun Hknown Hpast Hsome.
  destruct (sqlite_fault env (accesses st)) as [e |] eqn:Hup.
  { rewrite retrieve_relevant_run, Hup in Hpast; discriminate. }
  rewrite (process_request_run env session request st Hup Hknown) in Hrun; cbv zeta in Hrun.
  rewrite retrieve_relevant_run, Hup in Hpast; cbn [fst] in Hpast.
  injection Hpast as Hpast; rewrite Hpast in Hrun.
  destruct (dispatch_loop env (agents_needed (interpret_request request))
              (parameters (interpret_request request)) request [] [] (accessed st))
    as [[collected | e] st1]; [ | discriminate ].
  destruct (sqlite_fault env (accesses st1)); [ discriminate | ].
  injection Hrun as <- _.
  split.
  - destruct past as [| row past]; [ contradiction | ].
    apply compile_response_starts_with_summary; reflexivity.
  - rewrite <- Hpast, length_map; unfold select_interactions.
    apply (sql_limit_length 3); lia.
Qed.

End ContextNote.

Lemma every_response_is_reported_witness :
  let ok := mkAgentResponse true "photos sorted" None (Some ["a"; "b"; "c"; "d"]) in
  let ko := mkAgentResponse false "Error in file: access denied" None None in
  contains (report_line ko)
    (_compile_response "x" (interpret_request "sort photos") [ok; ko] "") = true
  /\ contains (message ko)
       (_compile_response "x" (interpret_request "sort photos") [ok; ko] "") = true.
Proof.
  cbv zeta.
  apply (every_response_is_reported "x" (interpret_request "sort photos")
           [mkAgentResponse true "photos sorted" None (Some ["a"; "b"; "c"; "d"]);
            mkAgentResponse false "Error in file: access denied" None None]
           "" (mkAgentResponse false "Error in file: access denied" None None)).
  right; left; reflexivity.
Defined.

Lemma context_note_leads_reply_witness :
  startswith (context_note
                (List.length
                   (map as_dict
                      (select_interactions (where_clause "backup") 3 six_rows))))
    (match fst (process_request sample_env "s1" "backup" six_rows_state) with
     | Ok reply => reply
     | Raise _ => ""
     end) = true
  /\ List.length (map as_dict (select_interactions (where_clause "backup") 3 six_rows)) <= 3.
Proof.
  apply (context_note_leads_reply sample_env "s1" "backup" _ six_rows_state
           (snd (process_request sample_env "s1" "backup" six_rows_state))).
  - reflexivity.
  - intros H; vm_compute in H; discriminate.
  - reflexivity.
  - intros H; vm_compute in H; discriminate.
Defined.

Example reply_with_context_note :
  fst (process_request sample_env "s1" "backup" six_rows_state)
  = Ok (join nl
          [ "Found 1 relevant past interactions. ";
            "Here's what I accomplished:";
            "✓ backed up";
            "  - count: 2";
            "  • step" ]).
Proof. reflexivity. Qed.

(** ** ResearchAgent and AutomationAgent behind the orchestrator *)

Section OwnAgents.

Variable env : Env.
Variable session : string.

Ltac case_ifs :=
  repeat match goal with
    | |- context [if ?b then _ else _] => destruct b eqn:?
    end.

(** A research intent means the research handler alone, with no
    parameter. *)
Lemma research_intent_shape (request : string) :
  primary_intent (interpret_request request) = "research" ->
  agents_needed (interpret_request request) = ["research"]
  /\ parameters (interpret_request request) = [].
Proof.
  intros Hintent.
  destruct (contains "organize my" (lower request)) eqn:Hphrase.
  { destruct (organize_my_is_file_management request Hphrase) as [H _].
    rewrite H in Hintent; discriminate. }
  revert Hintent; unfold interpret_request, multi_agent_override; rewrite Hphrase.
  unfold primary_cascade; case_ifs; cbn; intros Hlabel; try discriminate Hlabel.
  split; reflexivity.
Qed.

(** X21: a request classified as research, answered by the code's own
    research agent, always completes when the store answers: the reply is
    the context note, if any, then the header, the message "Found
    information about: <query>" and the two actions of the agent, with no
    data line and no tip; the query is the request with "search for" and
    "research" removed and the ends stripped. *)
Theorem research_turn_reply (request : string) (st : State) :
  (forall n, reachable env n) ->
  primary_intent (interpret_request request) = "research" ->
  let query := strip (replace "research" "" (replace "search for" "" request)) in
  let past := select_interactions (where_clause request) 3 (interactions (db st)) in
  let note :=
    match past with
    | [] => []
    | _ :: _ => [context_note (List.length past)]
    end in
  fst (process_request (with_own_agents env) session request st)
  = Ok (join nl (note ++ research_lines query)).
Proof.
  intros Hup Hintent; cbv zeta.
  destruct (research_intent_shape request Hintent) as [Hagents Hparams].
  rewrite process_request_run;
    [ | exact (Hup (accesses st)) | rewrite Hintent; discriminate ].
  cbv zeta; rewrite Hagents, Hparams.
  cbn [dispatch_loop]; rewrite bind_run.
  unfold _execute_agent_action; rewrite bind_run; cbn [note_dispatch].
  cbn [String.eqb Ascii.eqb Bool.eqb].
  unfold try_except, returning; rewrite bind_run.
  cbn [call with_own_agents research_get_information ret actions_taken
         ResearchAgent.get_information sqlite_fault accesses accessed].
  pose proof (Hup (S (accesses st))) as Hup1; unfold reachable in Hup1; rewrite Hup1.
  cbn [fst]; f_equal.
  unfold _compile_response; rewrite Hintent.
  fold (where_clause request); rewrite length_map.
  destruct (select_interactions (where_clause request) 3 (interactions (db st)))
    as [| row past]; reflexivity.
Qed.

Lemma lower_keywords :
  map (fun entry => lower (fst entry)) AutomationAgent.tool_suggestions
  = ["file organizer"; "backup"; "duplicate finder"; "system monitor"].
Proof. reflexivity. Qed.

(** X22: through the orchestrator create_tool can only suggest the system
    monitor or a custom tool: when a request reaches the automation
    handler with the action "create_tool", it holds none of "file",
    "duplicate" and "backup", so the three other entries of the
    suggestion table are never selected. *)
Theorem create_tool_reachable_suggestions (request : string) :
  In "automation" (agents_needed (interpret_request request)) ->
  dict_get "action" (parameters (interpret_request request)) "organize_desktop"
  = "create_tool" ->
  AutomationAgent.suggested_tool request = "Monitor system resources and send alerts"
  \/ AutomationAgent.suggested_tool request = "Custom tool for: " ++ request.
Proof.
  intros Hagent Haction.
  destruct (contains "organize my" (lower request)) eqn:Hphrase.
  { destruct (organize_my_is_file_management request Hphrase) as [_ [H | H]];
      rewrite H in Haction; discriminate. }
  assert (Hsame : interpret_request request = primary_cascade (lower request)).
  { unfold interpret_request, multi_agent_override; rewrite Hphrase; reflexivity. }
  rewrite Hsame in Hagent, Haction; clear Hsame.
  assert (Hfile : contains "file" (lower request) = false
                  /\ contains "duplicate" (lower request) = false
                  /\ contains "backup" (lower request) = false).
  { revert Hagent Haction; unfold primary_cascade.
    destruct (any_in ["file"; "folder"; "organize"; "find"; "duplicate"] (lower request))
      eqn:Hany.
    - case_ifs; cbn; intros Hag; repeat destruct Hag as [Hag | Hag];
        discriminate || contradiction.
    - unfold any_in in Hany; cbn [existsb] in Hany.
      repeat (apply orb_false_iff in Hany as [? Hany]).
      case_ifs; cbn; intros Hag Hact; try discriminate Hact;
        repeat destruct Hag as [Hag | Hag]; try discriminate Hag; try contradiction;
        repeat split; assumption. }
  destruct Hfile as [Hfile [Hdup Hbackup]].
  assert (Horganizer : contains "file organizer" (lower request) = false).
  { destruct (contains "file organizer" (lower request)) eqn:E; [ | reflexivity ].
    apply (contains_app_l "file" " organizer") in E; congruence. }
  assert (Hfinder : contains "duplicate finder" (lower request) = false).
  { destruct (contains "duplicate finder" (lower request)) eqn:E; [ | reflexivity ].
    apply (contains_app_l "duplicate" " finder") in E; congruence. }
  unfold AutomationAgent.suggested_tool, AutomationAgent.tool_suggestions.
  cbn [List.find fst].
  change (lower "file organizer") with "file organizer".
  change (lower "backup") with "backup".
  change (lower "duplicate finder") with "duplicate finder".
  change (lower "system monitor") with "system monitor".
  rewrite Horganizer, Hbackup, Hfinder.
  destruct (contains "system monitor" (lower request)); [ left | right ]; reflexivity.
Qed.

(** X23: schedule_task numbers the tasks 1, 2, ... in the order of
    scheduling: the new task gets the identity one above the number of
    tasks already scheduled, different from every identity in use, and
    the earlier tasks are kept as they are. *)
Theorem schedule_task_ids (tasks : list AutomationAgent.ScheduledTask)
    (now task schedule_time : string) :
  ids_sequential tasks ->
  let tasks' := snd (AutomationAgent.schedule_task tasks now task schedule_time) in
  ids_sequential tasks'
  /\ (exists new,
        tasks' = (tasks ++ [new])%list
        /\ AutomationAgent.id new = S (List.length tasks)
        /\ AutomationAgent.status new = "scheduled"
        /\ forall old, In old tasks -> AutomationAgent.id old < AutomationAgent.id new).
Proof.
  intros Hseq; cbv zeta; unfold AutomationAgent.schedule_task; cbn [snd].
  split.
  - unfold ids_sequential in *.
    rewrite map_app, length_app, seq_app, Hseq; cbn.
    rewrite Nat.add_1_r; reflexivity.
  - eexists; split; [ reflexivity | ]; cbn.
    split; [ lia | split; [ reflexivity | ] ].
    intros old Hold.
    assert (Hin : In (AutomationAgent.id old) (seq 1 (List.length tasks)))
      by (unfold ids_sequential in Hseq; rewrite <- Hseq; apply in_map; exact Hold).
    apply in_seq in Hin; lia.
Qed.

End OwnAgents.

Lemma research_turn_reply_witness :
  let request := "Research solar panels" in
  let query := strip (replace "research" "" (replace "search for" "" request)) in
  let past := select_interactions (where_clause request) 3 (interactions (db fresh)) in
  let note :=
    match past with
    | [] => []
    | _ :: _ => [context_note (List.length past)]
    end in
  fst (process_request (with_own_agents sample_env) "s1" request fresh)
  = Ok (join nl (note ++ research_lines query)).
Proof.
  apply (research_turn_reply sample_env "s1" "Research solar panels" fresh).
  - intros n; reflexivity.
  - reflexivity.
Defined.

Example research_reply_text :
  fst (process_request (with_own_agents sample_env) "s1" "Research solar panels" fresh)
  = Ok (join nl
          [ "Here's what I accomplished:";
            "✓ Found information about: Research solar panels";
            "  • Searched for 'Research solar panels'";
            "  • Analyzed results" ]).
Proof. reflexivity. Qed.

Lemma create_tool_reachable_suggestions_witness :
  AutomationAgent.suggested_tool "Create a System Monitor tool"
  = "Monitor system resources and send alerts"
  \/ AutomationAgent.suggested_tool "Create a System Monitor tool"
     = "Custom tool for: " ++ "Create a System Monitor tool".
Proof.
  apply (create_tool_reachable_suggestions "Create a System Monitor tool");
    [ left; reflexivity | reflexivity ].
Defined.

Example backup_suggestion_needs_direct_call :
  AutomationAgent.suggested_tool "a BACKUP tool" = "Automated backup script with scheduling"
  /\ parameters (interpret_request "a BACKUP tool") = [("action", "backup")].
Proof. split; reflexivity. Qed.

Lemma schedule_task_ids_witness :
  let tasks := snd (AutomationAgent.schedule_task [] "T0" "water plants" "tomorrow 9:00 AM") in
  let tasks' := snd (AutomationAgent.schedule_task tasks "T1" "call bank" "tomorrow 9:00 AM") in
  ids_sequential tasks'
  /\ (exists new,
        tasks' = (tasks ++ [new])%list
        /\ AutomationAgent.id new = S (List.length tasks)
        /\ AutomationAgent.status new = "scheduled"
        /\ forall old, In old tasks -> AutomationAgent.id old < AutomationAgent.id new).
Proof.
  apply (schedule_task_ids
           (snd (AutomationAgent.schedule_task [] "T0" "water plants" "tomorrow 9:00 AM"))
           "T1" "call bank" "tomorrow 9:00 AM").
  reflexivity.
Defined.

(** ** FileAgent *)

Section Files.

Variable os : Os.






(** X25: files that cannot be read all get the empty digest, so the
    second of two unreadable files is reported as a duplicate of the
    first, whatever they hold. *)
Theorem unreadable_files_are_duplicates (p1 p2 : string) (e1 e2 : PyExc) :
  read_bytes os p1 = Raise e1 -> exc_is_Exception e1 = true ->
  read_bytes os p2 = Raise e2 -> exc_is_Exception e2 = true ->
  FileAgent._get_file_hash os p1 = Ok ""
  /\ FileAgent.scan_duplicates os [p1; p2] [] [] = Ok ([("", p1)], [(p1, p2)]).
Proof.
  intros H1 He1 H2 He2.
  assert (Hh1 : FileAgent._get_file_hash os p1 = Ok "")
    by (unfold FileAgent._get_file_hash; rewrite H1, He1; reflexivity).
  assert (Hh2 : FileAgent._get_file_hash os p2 = Ok "")
    by (unfold FileAgent._get_file_hash; rewrite H2, He2; reflexivity).
  split; [ exact Hh1 | ].
  cbn [FileAgent.scan_duplicates]; rewrite Hh1; cbn [dict_find app].
  rewrite Hh2; reflexivity.
Qed.

Lemma find_loop_all_answered (search_terms : list string) (files : list (string * string))
    (found_files : list FileAgent.Found) :
  (forall f, In f files -> any_in search_terms (lower (snd f)) = true ->
             exists st_size st_mtime,
               os_stat os (os_path_join os (fst f) (snd f)) = Ok (st_size, st_mtime)) ->
  exists found,
    FileAgent.find_loop os search_terms files found_files = Ok (found_files ++ found)%list
    /\ map FileAgent.name found
       = List.filter (fun file => any_in search_terms (lower file)) (map snd files).
Proof.
  revert found_files; induction files as [| [root file] files IH]; intros found_files Hstat.
  - exists []; rewrite app_nil_r; split; reflexivity.
  - cbn [FileAgent.find_loop map snd List.filter].
    destruct (any_in search_terms (lower file)) eqn:Hmatch.
    + destruct (Hstat (root, file) (or_introl eq_refl) Hmatch) as [sz [mt Hok]].
      cbn [fst snd] in Hok; rewrite Hok.
      destruct (IH (found_files ++ [FileAgent.mkFound (os_path_join os root file) file sz mt])%list)
        as [found [Hrun Hnames]];
        [ intros f Hf; apply Hstat; right; exact Hf | ].
      exists (FileAgent.mkFound (os_path_join os root file) file sz mt :: found).
      rewrite Hrun, <- app_assoc; split; [ reflexivity | ].
      cbn [map FileAgent.name]; rewrite Hnames; reflexivity.
    + apply IH; intros f Hf; apply Hstat; right; exact Hf.
Qed.

(** X26: when the walk answers and os.stat answers on every file whose
    name matches, find_file reports, in the order of the walk, exactly
    the files whose lower-cased name contains at least one of the
    lower-cased terms; the directory part of a path is never matched. *)
Theorem find_file_lists_matches (name_or_keywords search_path : string)
    (entries : list (string * list string)) :
  os_walk os search_path = Ok entries ->
  (forall f, In f (FileAgent.walked entries) ->
             name_matches name_or_keywords (snd f) = true ->
             exists st_size st_mtime,
               os_stat os (os_path_join os (fst f) (snd f)) = Ok (st_size, st_mtime)) ->
  exists found,
    FileAgent.found_by os name_or_keywords search_path = Ok found
    /\ map FileAgent.name found
       = List.filter (name_matches name_or_keywords) (map snd (FileAgent.walked entries))
    /\ FileAgent.find_file os name_or_keywords search_path
       = Ok (mkAgentResponse true
               ("Found " ++ str_of_nat (List.length found) ++ " files matching '"
                  ++ name_or_keywords ++ "'")
               (Some [("files", VOpaque)])
               (Some [ "Searched in " ++ search_path;
                       "Found " ++ str_of_nat (List.length found) ++ " matches" ])).
Proof.
  intros Hwalk Hstat.
  destruct (find_loop_all_answered (split (lower name_or_keywords))
              (FileAgent.walked entries) [] Hstat) as [found [Hrun Hnames]].
  exists found.
  assert (Hfound : FileAgent.found_by os name_or_keywords search_path = Ok found)
    by (unfold FileAgent.found_by; rewrite Hwalk; exact Hrun).
  split; [ exact Hfound | split; [ exact Hnames | ] ].
  unfold FileAgent.find_file; rewrite Hfound; reflexivity.
Qed.

Lemma find_loop_no_term (files : list (string * string))
    (found_files : list FileAgent.Found) :
  FileAgent.find_loop os [] files found_files = Ok found_files.
Proof.
  induction files as [| [root file] files IH]; [ reflexivity | exact IH ].
Qed.

(** X27: with keywords that are empty or white space only, find_file
    finds nothing and cannot fail once the walk has answered: no file
    matches an empty set of terms, so os.stat is never consulted. *)
Theorem find_file_blank_keywords (name_or_keywords search_path : string)
    (entries : list (string * list string)) :
  blank name_or_keywords = true ->
  os_walk os search_path = Ok entries ->
  FileAgent.find_file os name_or_keywords search_path
  = Ok (mkAgentResponse true
          ("Found 0 files matching '" ++ name_or_keywords ++ "'")
          (Some [("files", VOpaque)])
          (Some ["Searched in " ++ search_path; "Found 0 matches"])).
Proof.
  intros Hblank Hwalk.
  unfold FileAgent.find_file, FileAgent.found_by.
  rewrite Hwalk, (split_blank_nil name_or_keywords Hblank), find_loop_no_term.
  reflexivity.
Qed.

End Files.


Lemma unreadable_files_are_duplicates_witness :
  let os := mkOs (os_walk sample_os) (os_path_join sample_os) (os_stat sample_os)
              (fun _ => Raise (mkExc "PermissionError" true "Permission denied"))
              (md5_hexdigest sample_os) (write_json sample_os) in
  FileAgent._get_file_hash os "x.bin" = Ok ""
  /\ FileAgent.scan_duplicates os ["x.bin"; "y.txt"] [] []
     = Ok ([("", "x.bin")], [("x.bin", "y.txt")]).
Proof.
  cbv zeta.
  apply (unreadable_files_are_duplicates _ "x.bin" "y.txt"
           (mkExc "PermissionError" true "Permission denied")
           (mkExc "PermissionError" true "Permission denied"));
    reflexivity.
Defined.

Lemma find_file_lists_matches_witness :
  exists found,
    FileAgent.found_by sample_os "REPORT summary" "." = Ok found
    /\ map FileAgent.name found
       = List.filter (name_matches "REPORT summary")
           (map snd (FileAgent.walked
                       [(".", ["Report.txt"; "notes.md"]);
                        ("./old", ["report.bak"; "locked.db"])]))
    /\ FileAgent.find_file sample_os "REPORT summary" "."
       = Ok (mkAgentResponse true
               ("Found " ++ str_of_nat (List.length found) ++ " files matching '"
                  ++ "REPORT summary" ++ "'")
               (Some [("files", VOpaque)])
               (Some [ "Searched in " ++ ".";
                       "Found " ++ str_of_nat (List.length found) ++ " matches" ])).
Proof.
  apply (find_file_lists_matches sample_os "REPORT summary" "."
           [(".", ["Report.txt"; "notes.md"]); ("./old", ["report.bak"; "locked.db"])]).
  - reflexivity.
  - intros f Hin Hmatch; cbn in Hin.
    repeat (destruct Hin as [<- | Hin];
            [ first [ discriminate Hmatch | eexists; eexists; reflexivity ] | ]).
    destruct Hin.
Defined.

Lemma find_file_blank_keywords_witness :
  FileAgent.find_file sample_os "  " "."
  = Ok (mkAgentResponse true
          ("Found 0 files matching '" ++ "  " ++ "'")
          (Some [("files", VOpaque)])
          (Some ["Searched in " ++ "."; "Found 0 matches"])).
Proof.
  apply (find_file_blank_keywords sample_os "  " "."
           [(".", ["Report.txt"; "notes.md"]); ("./old", ["report.bak"; "locked.db"])]);
    reflexivity.
Defined.

Example find_file_on_sample_tree :
  FileAgent.found_by sample_os "report" "."
  = Ok [ FileAgent.mkFound "./Report.txt" "Report.txt" 12 "2024-03-01T10:00:00";
         FileAgent.mkFound "./old/report.bak" "report.bak" 12 "2024-03-01T10:00:00" ]
  /\ FileAgent.find_file sample_os "db" "."
     = Ok (mkAgentResponse false "Error searching for files: Permission denied" None None)
  /\ FileAgent.remove_duplicates sample_os "."
     = Ok (mkAgentResponse true "Found 1 duplicate files"
             (Some [("duplicates", VOpaque)])
             (Some ["Scanned 3 files"; "Found 1 duplicates"])).
Proof. repeat split; reflexivity. Qed.

(** ** PhoneAgent: the contacts kept *)

Section Contacts.

Lemma existsb_eqb_in (x : string) (l : list string) :
  existsb (String.eqb x) l = true <-> In x l.
Proof.
  rewrite existsb_exists; split.
  - intros [y [Hy Heq]]; apply String.eqb_eq in Heq; subst; exact Hy.
  - intros H; exists x; split; [ exact H | apply String.eqb_refl ].
Qed.

Lemma dedupe_preserves (contacts seen cleaned duplicates : list PhoneAgent.Contact)
    (actions : list string) :
  dedupe_invariant seen cleaned duplicates actions ->
  exists cleaned' duplicates' actions',
    PhoneAgent.dedupe contacts (map PhoneAgent.name_lower cleaned) cleaned duplicates actions
    = (cleaned', duplicates', actions')
    /\ dedupe_invariant (seen ++ contacts) cleaned' duplicates' actions'.
Proof.
  revert seen cleaned duplicates actions.
  induction contacts as [| c contacts IH]; intros seen cleaned duplicates actions Hinv.
  - eexists; eexists; eexists; rewrite app_nil_r; split; [ reflexivity | exact Hinv ].
  - destruct Hinv as (Hcount & Hnodup & Hcover & Hsub & Hact).
    replace (seen ++ c :: contacts)%list with ((seen ++ [c]) ++ contacts)%list
      by (rewrite <- app_assoc; reflexivity).
    cbn [PhoneAgent.dedupe].
    destruct (existsb (String.eqb (PhoneAgent.name_lower c))
                (map PhoneAgent.name_lower cleaned)) eqn:Eseen; cbn [negb].
    + (* a name already kept: the contact is a duplicate *)
      apply IH; repeat split.
      * rewrite !length_app; cbn [List.length]; lia.
      * exact Hnodup.
      * intros x Hx; apply in_app_or in Hx as [Hx | [<- | []]]; [ exact (Hcover x Hx) | ].
        apply existsb_eqb_in, in_map_iff in Eseen as [k [Hk Hin]].
        exists k; split; assumption.
      * intros x [Hx | Hx]; apply in_or_app.
        -- left; apply Hsub; left; exact Hx.
        -- apply in_app_or in Hx as [Hx | [<- | []]];
             [ left; apply Hsub; right; exact Hx | right; left; reflexivity ].
      * rewrite !length_app; cbn [List.length]; lia.
    + (* a new name: the contact is kept *)
      replace (map PhoneAgent.name_lower cleaned ++ [PhoneAgent.name_lower c])%list
        with (map PhoneAgent.name_lower (cleaned ++ [c])%list)
        by (rewrite map_app; reflexivity).
      apply IH; repeat split.
      * rewrite !length_app; cbn [List.length]; lia.
      * rewrite map_app; cbn [map].
        apply NoDup_app; [ exact Hnodup | repeat constructor; intros [] | ].
        intros n Hn [<- | []].
        apply existsb_eqb_in in Hn; congruence.
      * intros x Hx; apply in_app_or in Hx as [Hx | [<- | []]].
        -- destruct (Hcover x Hx) as [k [Hk Heq]].
           exists k; split; [ apply in_or_app; left; exact Hk | exact Heq ].
        -- exists c; split; [ apply in_or_app; right; left; reflexivity | reflexivity ].
      * intros x [Hx | Hx]; apply in_or_app.
        -- apply in_app_or in Hx as [Hx | [<- | []]];
             [ left; apply Hsub; left; exact Hx | right; left; reflexivity ].
        -- left; apply Hsub; right; exact Hx.
      * exact Hact.
Qed.

(** X28: the loop of clean_contacts that removes duplicates sends every
    contact either to the kept list or to the duplicates; no two kept
    contacts have the same name once lower-cased and stripped, every
    contact has its name among the kept ones, and exactly one action is
    logged per duplicate. *)
Theorem dedupe_keeps_one_per_name (contacts : list PhoneAgent.Contact) :
  exists cleaned duplicates actions,
    PhoneAgent.dedupe contacts [] [] [] [] = (cleaned, duplicates, actions)
    /\ dedupe_invariant contacts cleaned duplicates actions.
Proof.
  destruct (dedupe_preserves contacts [] [] [] []) as [c [d [a [Hrun Hinv]]]].
  - repeat split; try constructor; cbn; try tauto.
  - exists c, d, a; split; [ exact Hrun | exact Hinv ].
Qed.

End Contacts.

Example clean_contacts_on_sample :
  PhoneAgent.clean_contacts sample_os "sample_contacts.json"
  = Ok (mkAgentResponse true
          "Contacts cleaned - 1 duplicates found, 3 contacts remaining"
          (Some [ ("original_count", VInt 4); ("cleaned_count", VInt 3);
                  ("duplicates_removed", VInt 1) ])
          (Some ["Found duplicate: john doe"; "Missing phone for: Bob Johnson"])).
Proof. reflexivity. Qed.

(** ** ProjectBrainSaver: one round of the command loop *)

Section CommandLoop.

Import ProjectBrainSaver.

Variable env : Env.
Variable session : string.

(** X29: a fault deriving from Exception never ends the command loop:
    when the turn of a typed request raises one (the store is
    unreachable, or the request has several handlers), the round prints
    "An error occurred: <text>" after "Processing", continues, and the
    database is as it was; and when input itself raises one, as at the
    end of piped input, the round prints it and continues with the state
    untouched. *)
Theorem cli_round_survives_faults (typed : string) (cli : Cli) (st : State) (e : PyExc) :
  exc_is_Exception e = true ->
  exc_class e <> "KeyboardInterrupt" ->
  truthy (strip typed) = true ->
  cli_command typed = false ->
  fst (process_request env session (strip typed) st) = Raise e ->
  run_cli_round env session (Raise e) cli st
  = (Ok Continue, print (ErrorOccurred (exc_str e)) cli, st)
  /\ run_cli_round env session (Ok typed) cli st
     = (Ok Continue,
        print (ErrorOccurred (exc_str e)) (print Processing cli),
        snd (process_request env session (strip typed) st))
  /\ db (snd (process_request env session (strip typed) st)) = db st.
Proof.
  intros Hexc Hclass Htyped Hcommand Hraise.
  assert (Hfault : forall c s, on_fault e c s = (Ok Continue, print (ErrorOccurred (exc_str e)) c, s)).
  { intros c s; unfold on_fault.
    destruct (String.eqb (exc_class e) "KeyboardInterrupt") eqn:E;
      [ apply String.eqb_eq in E; contradiction | ].
    rewrite Hexc; reflexivity. }
  split; [ exact (Hfault cli st) | ].
  split; [ | exact (process_request_raise_keeps_db env session (strip typed) st e Hraise) ].
  unfold run_cli_round; cbv zeta; rewrite Htyped; cbn [negb].
  unfold cli_command in Hcommand; cbn [existsb] in Hcommand.
  repeat (apply orb_false_iff in Hcommand as [? Hcommand]).
  cbn [existsb].
  repeat match goal with
    | H : String.eqb ?a ?b = false |- _ => rewrite H; clear H
    end.
  cbn [orb].
  destruct (process_request env session (strip typed) st) as [[reply | e'] st'];
    cbn [fst] in Hraise; [ discriminate | ].
  injection Hraise as ->; apply Hfault.
Qed.

(** X30: a line that is blank, or is one of exit, quit, bye, help and
    status in any letter case and with any white space around it, never
    reaches the orchestrator: the round makes no store access, dispatches
    no handler and leaves the database as it is; exit, quit and bye stop
    the loop, the others continue it. *)
Theorem cli_commands_stay_local (typed : string) (cli : Cli) (st : State) :
  truthy (strip typed) = false \/ cli_command typed = true ->
  exists step cli',
    run_cli_round env session (Ok typed) cli st
    = (Ok step, cli',
       mkState (db st) (accesses st)
         (if String.eqb (lower (strip typed)) "status" then S (clock_reads st)
          else clock_reads st)
         (dispatched st))
    /\ (step = Break
        <-> existsb (String.eqb (lower (strip typed))) ["exit"; "quit"; "bye"] = true).
Proof.
  intros Hlocal; unfold run_cli_round; cbv zeta.
  destruct (truthy (strip typed)) eqn:Htyped; cbn [negb].
  - destruct Hlocal as [H | Hcommand]; [ discriminate | ].
    unfold cli_command in Hcommand; cbn [existsb] in Hcommand |- *.
    destruct (String.eqb (lower (strip typed)) "exit") eqn:E1;
      [ cbn [orb]; destruct (String.eqb (lower (strip typed)) "status") eqn:Es;
        [ apply String.eqb_eq in E1, Es; congruence | ];
        destruct st; eexists; eexists; split; [ reflexivity | tauto ] | ].
    destruct (String.eqb (lower (strip typed)) "quit") eqn:E2;
      [ cbn [orb]; destruct (String.eqb (lower (strip typed)) "status") eqn:Es;
        [ apply String.eqb_eq in E2, Es; congruence | ];
        destruct st; eexists; eexists; split; [ reflexivity | tauto ] | ].
    destruct (String.eqb (lower (strip typed)) "bye") eqn:E3;
      [ cbn [orb]; destruct (String.eqb (lower (strip typed)) "status") eqn:Es;
        [ apply String.eqb_eq in E3, Es; congruence | ];
        destruct st; eexists; eexists; split; [ reflexivity | tauto ] | ].
    cbn [orb] in Hcommand |- *.
    destruct (String.eqb (lower (strip typed)) "help") eqn:E4.
    + destruct (String.eqb (lower (strip typed)) "status") eqn:Es;
        [ apply String.eqb_eq in E4, Es; congruence | ].
      destruct st; eexists; eexists; split; [ reflexivity | ].
      split; intros H; discriminate H.
    + cbn [orb] in Hcommand; rewrite orb_false_r in Hcommand; rewrite Hcommand.
      eexists; eexists; split; [ reflexivity | ].
      split; intros H; discriminate H.
  - assert (Hempty : strip typed = "") by (destruct (strip typed); [ reflexivity | discriminate ]).
    rewrite Hempty; cbn.
    destruct st; eexists; eexists; split; [ reflexivity | ].
    split; intros H; discriminate H.
Qed.

End CommandLoop.

Lemma cli_round_survives_faults_witness :
  let e := AttributeError_NoneType "actions_taken" in
  ProjectBrainSaver.run_cli_round sample_env "s1" (Raise e)
    (ProjectBrainSaver.mkCli true []) fresh
  = (Ok ProjectBrainSaver.Continue,
     ProjectBrainSaver.print (ProjectBrainSaver.ErrorOccurred (exc_str e))
       (ProjectBrainSaver.mkCli true []),
     fresh)
  /\ ProjectBrainSaver.run_cli_round sample_env "s1" (Ok " organize my phone ")
       (ProjectBrainSaver.mkCli true []) fresh
     = (Ok ProjectBrainSaver.Continue,
        ProjectBrainSaver.print (ProjectBrainSaver.ErrorOccurred (exc_str e))
          (ProjectBrainSaver.print ProjectBrainSaver.Processing
             (ProjectBrainSaver.mkCli true [])),
        snd (process_request sample_env "s1" (strip " organize my phone ") fresh))
  /\ db (snd (process_request sample_env "s1" (strip " organize my phone ") fresh))
     = db fresh.
Proof.
  apply (cli_round_survives_faults sample_env "s1" " organize my phone "
           (ProjectBrainSaver.mkCli true []) fresh
           (AttributeError_NoneType "actions_taken"));
    [ reflexivity | discriminate | reflexivity | reflexivity | reflexivity ].
Defined.

Example cli_round_on_several_handlers :
  ProjectBrainSaver.run_cli_round sample_env "s1" (Ok " organize my phone ")
    (ProjectBrainSaver.mkCli true []) fresh
  = (Ok ProjectBrainSaver.Continue,
     ProjectBrainSaver.mkCli true
       [ ProjectBrainSaver.Processing;
         ProjectBrainSaver.ErrorOccurred "'NoneType' object has no attribute 'actions_taken'" ],
     stopped_after ["phone"] fresh).
Proof. reflexivity. Qed.

Lemma cli_commands_stay_local_witness :
  exists step cli',
    ProjectBrainSaver.run_cli_round offline_env "s1" (Ok "  QUIT ")
      (ProjectBrainSaver.mkCli true []) six_rows_state
    = (Ok step, cli',
       mkState (db six_rows_state) (accesses six_rows_state)
         (if String.eqb (lower (strip "  QUIT ")) "status"
          then S (clock_reads six_rows_state) else clock_reads six_rows_state)
         (dispatched six_rows_state))
    /\ (step = ProjectBrainSaver.Break
        <-> existsb (String.eqb (lower (strip "  QUIT "))) ["exit"; "quit"; "bye"] = true).
Proof.
  apply (cli_commands_stay_local offline_env "s1" "  QUIT "
           (ProjectBrainSaver.mkCli true []) six_rows_state).
  right; reflexivity.
Defined.

Example cli_round_store_unreachable :
  ProjectBrainSaver.run_cli_round offline_env "s1" (Ok "find my notes")
    (ProjectBrainSaver.mkCli true []) fresh
  = (Ok ProjectBrainSaver.Continue,
     ProjectBrainSaver.mkCli true
       [ ProjectBrainSaver.Processing;
         ProjectBrainSaver.ErrorOccurred "unable to open database file" ],
     accessed fresh).
Proof. reflexivity. Qed.
